(** * Parkeervakken: regime derivation of [src/dags/parkeervakken.py]

    A shallow embedding of the record-processing core of the parkeervakken
    DAG: [parse_time], [days_from_row], [get_modes], [add_a_minute],
    [remove_a_minute], [create_regimes], [create_parkeervaak] and the row
    loop of [import_data].

    Python values are modelled as follows.
    - [datetime.time] (naive) is the record [time] of its four components;
      comparison is the lexicographic comparison of those components.
    - [datetime.datetime] is a date ordinal together with a [time];
      [datetime + timedelta] carries into the ordinal, [.time()] forgets it.
    - text attributes of a shapefile record are [option string]
      ([None] is Python's [None]); the weekday and aggregate flags, of which
      the code only inspects truthiness and [is not None], are [pyval].
    - the dictionaries built for modes and regimes have a fixed key set and
      are records; a key that only some modes carry is an [option] field.
    - the SQL tuples are kept as the records of values handed to
      [str.format]; the textual template itself is not modelled.
    - exceptions: [parse_time] catches the parser's ParserError only. The
      functions [parse_time], [get_modes], [create_regimes] and
      [import_data] give the values returned when nothing else is raised;
      their counterparts named [_run] follow the same code and return
      either that value or the exception that leaves the function. *)

From Stdlib Require Import ZArith List String Ascii Bool Lia.
Import ListNotations.
Open Scope string_scope.
Open Scope list_scope.
Open Scope Z_scope.

(** ** datetime.time *)

Record time : Type := Time
  { hour : Z; minute : Z; second : Z; microsecond : Z }.

(** [datetime.time(h, m)] *)
Definition time_hm (h m : Z) : time := Time h m 0 0.

Definition valid_time (t : time) : Prop :=
  0 <= hour t < 24 /\ 0 <= minute t < 60 /\
  0 <= second t < 60 /\ 0 <= microsecond t < 1000000.

Definition US_PER_SECOND : Z := 1000000.
Definition US_PER_MINUTE : Z := 60 * US_PER_SECOND.
Definition US_PER_HOUR : Z := 60 * US_PER_MINUTE.
Definition US_PER_DAY : Z := 24 * US_PER_HOUR.

(** Microseconds since midnight. *)
Definition time_to_us (t : time) : Z :=
  ((hour t * 60 + minute t) * 60 + second t) * US_PER_SECOND + microsecond t.

Definition time_of_us (n : Z) : time :=
  Time (n / US_PER_HOUR) (n / US_PER_MINUTE mod 60)
       (n / US_PER_SECOND mod 60) (n mod US_PER_SECOND).

(** Comparison of naive times: the tuples (hour, minute, second,
    microsecond) are compared lexicographically. *)
Definition time_cmp (a b : time) : comparison :=
  match hour a ?= hour b with
  | Eq =>
      match minute a ?= minute b with
      | Eq =>
          match second a ?= second b with
          | Eq => microsecond a ?= microsecond b
          | c => c
          end
      | c => c
      end
  | c => c
  end.

Definition time_ltb (a b : time) : bool :=
  match time_cmp a b with Lt => true | _ => false end.

Definition time_gtb (a b : time) : bool :=
  match time_cmp a b with Gt => true | _ => false end.

Definition time_geb (a b : time) : bool :=
  match time_cmp a b with Lt => false | _ => true end.

(** ** datetime.datetime and timedelta *)

Record datetime : Type := DateTime { dt_date : Z; dt_time : time }.

(** [datetime.datetime.combine(date, time)] *)
Definition combine_dt (date : Z) (t : time) : datetime := DateTime date t.

(** [datetime.timedelta(minutes=n)], in microseconds. *)
Definition timedelta_minutes (n : Z) : Z := n * US_PER_MINUTE.

(** [dt + delta]: the overflow of the time of day carries into the date. *)
Definition datetime_add (dt : datetime) (delta : Z) : datetime :=
  let us := time_to_us (dt_time dt) + delta in
  DateTime (dt_date dt + us / US_PER_DAY) (time_of_us (us mod US_PER_DAY)).

Definition datetime_sub (dt : datetime) (delta : Z) : datetime :=
  datetime_add dt (- delta).

(** ** Python values of the record attributes *)

Inductive pyval : Type :=
| PyNone
| PyBool (b : bool)
| PyInt (n : Z)
| PyStr (s : string).

(** Truth value of a Python object. *)
Definition truthy (v : pyval) : bool :=
  match v with
  | PyNone => false
  | PyBool b => b
  | PyInt n => negb (n =? 0)
  | PyStr s => negb (String.eqb s "")
  end.

(** [v is not None] *)
Definition is_not_None (v : pyval) : bool :=
  match v with PyNone => false | _ => true end.

(** Truth value of a text attribute: [None] and the empty string are falsy. *)
Definition str_truthy (v : option string) : bool :=
  match v with
  | Some s => negb (String.eqb s "")
  | None => false
  end.

(** [v or d] for a text attribute [v] and a string [d]. *)
Definition or_str (v : option string) (d : string) : string :=
  match v with
  | Some s => if String.eqb s "" then d else s
  | None => d
  end.

(** [s.replace(c, by)] for a one-character pattern. *)
Fixpoint replace_char (c : ascii) (by_ : string) (s : string) : string :=
  match s with
  | EmptyString => EmptyString
  | String a rest =>
      if Ascii.eqb a c then String.append by_ (replace_char c by_ rest)
      else String a (replace_char c by_ rest)
  end.

(** [s.replace("'", "\\'")] *)
Definition escape_quote (s : string) : string := replace_char "'"%char "\'" s.

(** [sep.join(l)] *)
Fixpoint join (sep : string) (l : list string) : string :=
  match l with
  | [] => ""
  | [x] => x
  | x :: rest => String.append x (String.append sep (join sep rest))
  end.

(** [t.strftime("%H:%M")] *)
Definition digit (n : Z) : ascii := ascii_of_nat (48 + Z.to_nat n).

Definition two_digits (n : Z) : string :=
  String (digit (n / 10)) (String (digit (n mod 10)) EmptyString).

Definition strftime_HM (t : time) : string :=
  String.append (two_digits (hour t))
    (String.append ":" (two_digits (minute t))).

(** The double-quote character, as a string. *)
Definition dquote : string := String (ascii_of_nat 34) EmptyString.

(** [f"'{s}'"] *)
Definition sql_quoted (s : string) : string :=
  String.append "'" (String.append s "'").

(** [f"'{v}'" if v else "NULL"] *)
Definition quoted_or_NULL (v : option string) : string :=
  match v with
  | Some s => if String.eqb s "" then "NULL" else sql_quoted s
  | None => "NULL"
  end.

(** ** Shapefile rows *)

Record ShapeRecord : Type := mkRecord
  { PARKEER_ID : string;
    BUURTCODE : option string;
    STRAATNAAM : string;
    SOORT : option string;
    TYPE : option string;
    AANTAL : pyval;
    E_TYPE : option string;
    BORD : option string;
    KENTEKEN : option string;
    OPMERKING : option string;
    BEGINTIJD1 : option string;
    EINDTIJD1 : option string;
    BEGINTIJD2 : option string;
    EINDTIJD2 : option string;
    TVM_BEGINT : option string;
    TVM_EINDT : option string;
    TVM_BEGIND : option string;
    TVM_EINDD : option string;
    TVM_OPMERK : option string;
    MA_VR : pyval;
    MA_ZA : pyval;
    MA : pyval;
    DI : pyval;
    WO : pyval;
    DO : pyval;
    VR : pyval;
    ZA : pyval;
    ZO : pyval }.

(** [row.shape]: its type name and the text [str(Polygon(row.shape.points))],
    which the shapely library computes. *)
Record Shape : Type := mkShape { shapeTypeName : string; polygon_text : string }.

Record ShapeRow : Type := mkRow { record : ShapeRecord; shape : Shape }.

(** ** Module constants *)

Definition WEEK_DAYS : list string := ["ma"; "di"; "wo"; "do"; "vr"; "za"; "zo"].

Definition E_TYPES : list (string * string) :=
  [ ("E1", "Parkeerverbod");
    ("E2", "Verbod stil te staan");
    ("E3", "Verbod fietsen en bromfietsen te plaatsen");
    ("E4", "Parkeergelegenheid");
    ("E5", "Taxistandplaats");
    ("E6", "Gehandicaptenparkeerplaats");
    ("E6a", "Gehandicaptenparkeerplaats algemeen");
    ("E6b", "Gehandicaptenparkeerplaats op kenteken");
    ("E7", "Gelegenheid bestemd voor het onmiddellijk laden en lossen van goederen");
    ("E8", "Parkeergelegenheid alleen bestemd voor de voertuigcategorie of groep voertuigen die op het bord is aangegeven");
    ("E9", "Parkeergelegenheid alleen bestemd voor vergunninghouders");
    ("E10", "Parkeerschijf-zone met verplicht gebruik van parkeerschijf, tevens parkeerverbod indien er langer wordt geparkeerd dan de parkeerduur die op het bord is aangegeven");
    ("E11", "Einde parkeerschijf-zone met verplicht gebruik van parkeerschijf");
    ("E12", "Parkeergelegenheid ten behoeve van overstappers op het openbaar vervoer");
    ("E13", "Parkeergelegenheid ten behoeve van carpoolers") ].

(** [d.get(k, default)] on a dictionary given by its items. *)
Fixpoint dict_get (d : list (string * string)) (k default : string) : string :=
  match d with
  | [] => default
  | (k', v) :: rest => if String.eqb k k' then v else dict_get rest k default
  end.

(** ** Modes and regimes *)

(** A mode dictionary of [get_modes]. The keys begin_datum, eind_datum and
    opmerking exist only in the temporary-measure mode: [None] stands for an
    absent key. *)
Record mode : Type := mkMode
  { m_soort : string;
    m_bord : string;
    m_e_type : string;
    m_kenteken : option string;
    m_begin_tijd : time;
    m_eind_tijd : time;
    m_begin_datum : option string;
    m_eind_datum : option string;
    m_opmerking : option string }.

(** A regime dictionary of [create_regimes]: the keys of [base_data]. *)
Record regime : Type := mkRegime
  { parent_id : string;
    soort : string;
    e_type : string;
    bord : string;
    begin_tijd : time;
    eind_tijd : time;
    opmerking : string;
    dagen : list string;
    kenteken : option string;
    begin_datum : option string;
    eind_datum : option string }.

Definition set_dagen (x : regime) (d : list string) : regime :=
  mkRegime (parent_id x) (soort x) (e_type x) (bord x) (begin_tijd x)
    (eind_tijd x) (opmerking x) d (kenteken x) (begin_datum x) (eind_datum x).

Definition set_begin_tijd (x : regime) (t : time) : regime :=
  mkRegime (parent_id x) (soort x) (e_type x) (bord x) t
    (eind_tijd x) (opmerking x) (dagen x) (kenteken x) (begin_datum x)
    (eind_datum x).

Definition set_eind_tijd (x : regime) (t : time) : regime :=
  mkRegime (parent_id x) (soort x) (e_type x) (bord x) (begin_tijd x)
    t (opmerking x) (dagen x) (kenteken x) (begin_datum x) (eind_datum x).

(** [x.update(m)] for a regime [x] and a mode [m]: every key of [m]
    overwrites the one of [x]. *)
Definition update_mode (x : regime) (m : mode) : regime :=
  mkRegime (parent_id x) (m_soort m) (m_e_type m) (m_bord m)
    (m_begin_tijd m) (m_eind_tijd m)
    (match m_opmerking m with Some s => s | None => opmerking x end)
    (dagen x) (m_kenteken m)
    (match m_begin_datum m with Some s => Some s | None => begin_datum x end)
    (match m_eind_datum m with Some s => Some s | None => eind_datum x end).

(** ** Notions for lists of day codes *)

(** [l] is [l'] with some elements left out, the order kept. *)
Fixpoint is_subsequence (l l' : list string) {struct l'} : bool :=
  match l' with
  | [] => match l with [] => true | _ :: _ => false end
  | y :: rest' =>
      match l with
      | [] => true
      | x :: rest =>
          if String.eqb x y then is_subsequence rest rest'
          else is_subsequence l rest'
      end
  end.

(** ** The object store listing *)

(** An entry of [hook.list_container(container)]. *)
Record container_entry : Type := mkEntry
  { content_type : string; name : string; last_modified : string }.

(** What the choice of the export file can raise: an exception of the
    date parser, the TypeError of comparing a stamp with a time zone to one
    without, or the AirflowException for an empty choice. *)
Inductive raised : Type :=
| ParserRaised
| TypeErrorRaised
| AirflowException.

(** ** Exceptions *)

(** The exceptions that can leave the functions of the module: the
    [ValueError] of [int], and what the date parser raises besides the
    [ParserError] that [parse_time] catches ([OverflowError], for one;
    [OtherError] names any other). *)
Inductive exception : Type :=
| ValueError
| OverflowError
| OtherError (name : string).

(** Sequencing of computations that return a value or raise. *)
Definition bind {A B : Type} (x : exception + A) (f : A -> exception + B)
    : exception + B :=
  match x with
  | inl e => inl e
  | inr a => f a
  end.

(** ** Sample inputs

    A time reader and an integer reader to run the definitions on concrete
    rows: [hhmm_parse] reads exactly the strings HH:MM of a valid time of
    day, [decimal_int] the non-empty strings of decimal digits. *)

Definition digit_val (c : ascii) : option Z :=
  let n := Z.of_nat (nat_of_ascii c) in
  if (48 <=? n) && (n <=? 57) then Some (n - 48) else None.

Definition hhmm_parse (s : string) : option time :=
  match s with
  | String a (String b (String sep (String c (String d EmptyString)))) =>
      match digit_val a, digit_val b, digit_val c, digit_val d with
      | Some a, Some b, Some c, Some d =>
          let h := 10 * a + b in
          let m := 10 * c + d in
          if Ascii.eqb sep ":"%char && (h <? 24) && (m <? 60)
          then Some (time_hm h m)
          else None
      | _, _, _, _ => None
      end
  | _ => None
  end.

Fixpoint decimal_digits (acc : Z) (s : string) : option Z :=
  match s with
  | EmptyString => Some acc
  | String c rest =>
      match digit_val c with
      | Some d => decimal_digits (10 * acc + d) rest
      | None => None
      end
  end.

Definition decimal_int (s : string) : option Z :=
  match s with
  | EmptyString => None
  | _ => decimal_digits 0 s
  end.

(** A record with the given identifier and every other attribute unset. *)
Definition blank_record (id : string) : ShapeRecord :=
  {| PARKEER_ID := id; BUURTCODE := None; STRAATNAAM := ""; SOORT := None;
     TYPE := None; AANTAL := PyInt 1; E_TYPE := None; BORD := None;
     KENTEKEN := None; OPMERKING := None;
     BEGINTIJD1 := None; EINDTIJD1 := None;
     BEGINTIJD2 := None; EINDTIJD2 := None;
     TVM_BEGINT := None; TVM_EINDT := None; TVM_BEGIND := None;
     TVM_EINDD := None; TVM_OPMERK := None;
     MA_VR := PyNone; MA_ZA := PyNone;
     MA := PyNone; DI := PyNone; WO := PyNone; DO := PyNone; VR := PyNone;
     ZA := PyNone; ZO := PyNone |}.

Definition with_slot1 (b e : option string) (r : ShapeRecord) : ShapeRecord :=
  mkRecord (PARKEER_ID r) (BUURTCODE r) (STRAATNAAM r) (SOORT r) (TYPE r)
    (AANTAL r) (E_TYPE r) (BORD r) (KENTEKEN r) (OPMERKING r)
    b e (BEGINTIJD2 r) (EINDTIJD2 r)
    (TVM_BEGINT r) (TVM_EINDT r) (TVM_BEGIND r) (TVM_EINDD r) (TVM_OPMERK r)
    (MA_VR r) (MA_ZA r) (MA r) (DI r) (WO r) (DO r) (VR r) (ZA r) (ZO r).

Definition with_slot2 (b e : option string) (r : ShapeRecord) : ShapeRecord :=
  mkRecord (PARKEER_ID r) (BUURTCODE r) (STRAATNAAM r) (SOORT r) (TYPE r)
    (AANTAL r) (E_TYPE r) (BORD r) (KENTEKEN r) (OPMERKING r)
    (BEGINTIJD1 r) (EINDTIJD1 r) b e
    (TVM_BEGINT r) (TVM_EINDT r) (TVM_BEGIND r) (TVM_EINDD r) (TVM_OPMERK r)
    (MA_VR r) (MA_ZA r) (MA r) (DI r) (WO r) (DO r) (VR r) (ZA r) (ZO r).

Definition with_tvm (bt et opm : option string) (r : ShapeRecord)
    : ShapeRecord :=
  mkRecord (PARKEER_ID r) (BUURTCODE r) (STRAATNAAM r) (SOORT r) (TYPE r)
    (AANTAL r) (E_TYPE r) (BORD r) (KENTEKEN r) (OPMERKING r)
    (BEGINTIJD1 r) (EINDTIJD1 r) (BEGINTIJD2 r) (EINDTIJD2 r)
    bt et (TVM_BEGIND r) (TVM_EINDD r) opm
    (MA_VR r) (MA_ZA r) (MA r) (DI r) (WO r) (DO r) (VR r) (ZA r) (ZO r).

Definition with_soort (so et : option string) (r : ShapeRecord)
    : ShapeRecord :=
  mkRecord (PARKEER_ID r) (BUURTCODE r) (STRAATNAAM r) so (TYPE r)
    (AANTAL r) et (BORD r) (KENTEKEN r) (OPMERKING r)
    (BEGINTIJD1 r) (EINDTIJD1 r) (BEGINTIJD2 r) (EINDTIJD2 r)
    (TVM_BEGINT r) (TVM_EINDT r) (TVM_BEGIND r) (TVM_EINDD r) (TVM_OPMERK r)
    (MA_VR r) (MA_ZA r) (MA r) (DI r) (WO r) (DO r) (VR r) (ZA r) (ZO r).

Definition with_aggregates (ma_vr ma_za : pyval) (r : ShapeRecord)
    : ShapeRecord :=
  mkRecord (PARKEER_ID r) (BUURTCODE r) (STRAATNAAM r) (SOORT r) (TYPE r)
    (AANTAL r) (E_TYPE r) (BORD r) (KENTEKEN r) (OPMERKING r)
    (BEGINTIJD1 r) (EINDTIJD1 r) (BEGINTIJD2 r) (EINDTIJD2 r)
    (TVM_BEGINT r) (TVM_EINDT r) (TVM_BEGIND r) (TVM_EINDD r) (TVM_OPMERK r)
    ma_vr ma_za (MA r) (DI r) (WO r) (DO r) (VR r) (ZA r) (ZO r).

Definition with_days (ma di wo do_ vr za zo : pyval) (r : ShapeRecord)
    : ShapeRecord :=
  mkRecord (PARKEER_ID r) (BUURTCODE r) (STRAATNAAM r) (SOORT r) (TYPE r)
    (AANTAL r) (E_TYPE r) (BORD r) (KENTEKEN r) (OPMERKING r)
    (BEGINTIJD1 r) (EINDTIJD1 r) (BEGINTIJD2 r) (EINDTIJD2 r)
    (TVM_BEGINT r) (TVM_EINDT r) (TVM_BEGIND r) (TVM_EINDD r) (TVM_OPMERK r)
    (MA_VR r) (MA_ZA r) ma di wo do_ vr za zo.

(** The ordinal of 1 June 2021, a day to run the minute arithmetic on. *)
Definition sample_today : Z := 737942.

(** A row without geometry. *)
Definition row_of (r : ShapeRecord) : ShapeRow := mkRow r (mkShape "NULL" "").

(** Slot 1 from 08:00 to 18:00, nothing else set. *)
Definition row_day_slot : ShapeRow :=
  row_of (with_slot1 (Some "08:00") (Some "18:00") (blank_record "42")).

(** Slot 1 from 20:00 to 06:00, with the Monday-Friday flag. *)
Definition row_overnight : ShapeRow :=
  row_of (with_aggregates (PyBool true) PyNone
            (with_slot1 (Some "20:00") (Some "06:00") (blank_record "7"))).

(** Slot 1 from 08:00 to 18:00 and slot 2 from 10:00 to 12:00. *)
Definition row_overlap : ShapeRow :=
  row_of (with_slot2 (Some "10:00") (Some "12:00")
            (with_slot1 (Some "08:00") (Some "18:00") (blank_record "42"))).

(** A temporary measure, an overnight slot 1 and a slot 2. *)
Definition row_four_modes : ShapeRow :=
  row_of (with_tvm None None (Some "markt")
            (with_slot2 (Some "10:00") None
               (with_slot1 (Some "20:00") (Some "06:00") (blank_record "7")))).

(** No time attribute at all, SOORT set, Monday-Friday flag set. *)
Definition row_override : ShapeRow :=
  row_of (with_soort (Some "MULDER") None
            (with_aggregates (PyBool true) PyNone (blank_record "7"))).

(** Only a temporary measure from 08:00 to 18:00, with sign type E9. *)
Definition row_tvm_timed : ShapeRow :=
  row_of (with_soort None (Some "E9")
            (with_tvm (Some "08:00") (Some "18:00") None (blank_record "9"))).

(** SOORT set, slot 1 from 08:00 to 18:00 and slot 2 from 19:00 to 20:00. *)
Definition row_two_slots : ShapeRow :=
  row_of (with_soort (Some "MULDER") None
            (with_slot2 (Some "19:00") (Some "20:00")
               (with_slot1 (Some "08:00") (Some "18:00") (blank_record "5")))).

(** Every weekday flag a falsy value other than None. *)
Definition row_falsy_days : ShapeRow :=
  row_of (with_days (PyStr "") (PyBool false) (PyInt 0) (PyStr "")
            (PyBool false) (PyInt 0) (PyStr "") (blank_record "3")).

(** Monday truthy, Tuesday false, the other weekday flags None. *)
Definition row_mixed_days : ShapeRow :=
  row_of (with_days (PyBool true) (PyBool false) PyNone PyNone PyNone PyNone
            PyNone (blank_record "3")).

(** A temporary measure without times (the whole day) and slot 1 from
    08:00 to 18:00. *)
Definition row_tvm_and_slot : ShapeRow :=
  row_of (with_tvm None None (Some "markt")
            (with_slot1 (Some "08:00") (Some "18:00") (blank_record "11"))).

(** A name test and a stamp reader to run the choice of the export file
    on: names that begin with nivo_, and stamps written as decimal digits. *)
Definition nivo_name (s : string) : bool := String.prefix "nivo_" s.

(** Stamps without a time zone. *)
Definition naive_stamp (s : string) : bool := false.

Definition sample_listing : list container_entry :=
  [ mkEntry "text/plain" "readme.txt" "20210301";
    mkEntry "application/zip" "nivo_1.zip" "20210101";
    mkEntry "application/zip" "other.zip" "20210401";
    mkEntry "application/zip" "nivo_2.zip" "20210201";
    mkEntry "application/zip" "nivo_3.zip" "20210201" ].

(** A parser that lets an OverflowError through on a string of twenty
    nines, as dateutil does, and no other exception. *)
Definition overflow_on_nines (s : string) : option exception :=
  if String.eqb s "99999999999999999999" then Some OverflowError else None.

(** A row with the identifier 1 whose slot-1 begin is that string. *)
Definition row_overflow : ShapeRow :=
  row_of (with_slot1 (Some "99999999999999999999") None (blank_record "1")).

Section Parkeervakken.

(** [datetime.date.today()], as a day ordinal. *)
Variable today : Z.

(** [dateutil.parser.parse(value).time()]: the time of day the dateutil
    library reads from a string, [None] when it raises [ParserError]. What the
    parser raises besides ParserError is [dateutil_uncaught], further
    down. *)
Variable dateutil_parse : string -> option time.

(** [int(s)] on a string: [None] when it raises [ValueError]. *)
Variable py_int : string -> option Z.

(** ** parse_time *)

(** The string handed to the parser: "24:00" is read as "23:59", and a
    leading "va " is cut off ([value[3:]]). *)
Definition time_text (value : string) : string :=
  let value := if String.eqb value "24:00" then "23:59" else value in
  if String.prefix "va " value
  then String.substring 3 (String.length value - 3) value
  else value.

Definition parse_time (value : option string) (default : time) : time :=
  match value with
  | Some value =>
      match dateutil_parse (time_text value) with
      | Some parsed => parsed
      | None => default
      end
  | None => default
  end.

(** ** days_from_row *)

(** [getattr(row.record, day.upper())] for a day of [WEEK_DAYS]. *)
Definition getattr_day (r : ShapeRecord) (day : string) : pyval :=
  if String.eqb day "ma" then MA r
  else if String.eqb day "di" then DI r
  else if String.eqb day "wo" then WO r
  else if String.eqb day "do" then DO r
  else if String.eqb day "vr" then VR r
  else if String.eqb day "za" then ZA r
  else if String.eqb day "zo" then ZO r
  else PyNone.

Definition days_from_row (row : ShapeRow) : list string :=
  if truthy (MA_VR (record row)) then firstn 4 WEEK_DAYS
  else if truthy (MA_ZA (record row)) then firstn 5 WEEK_DAYS
  else if negb (existsb truthy (map (getattr_day (record row)) WEEK_DAYS))
       then WEEK_DAYS
  else filter (fun day => is_not_None (getattr_day (record row) day)) WEEK_DAYS.

(** ** add_a_minute, remove_a_minute *)

Definition add_a_minute (t : time) : time :=
  dt_time (datetime_add (combine_dt today t) (timedelta_minutes 1)).

Definition remove_a_minute (t : time) : time :=
  dt_time (datetime_sub (combine_dt today t) (timedelta_minutes 1)).

(** ** get_modes *)

(** [base.copy()] updated with a begin and an end time. *)
Definition slot_mode (r : ShapeRecord) (b e : time) : mode :=
  {| m_soort := or_str (SOORT r) "FISCAAL";
     m_bord := or_str (BORD r) "";
     m_e_type := or_str (E_TYPE r) "";
     m_kenteken := KENTEKEN r;
     m_begin_tijd := b;
     m_eind_tijd := e;
     m_begin_datum := None;
     m_eind_datum := None;
     m_opmerking := None |}.

(** [base.copy()] updated with the temporary-measure keys. *)
Definition tvm_mode (r : ShapeRecord) : mode :=
  {| m_soort := or_str (E_TYPE r) "FISCAAL";
     m_bord := or_str (BORD r) "";
     m_e_type := or_str (E_TYPE r) "";
     m_kenteken := KENTEKEN r;
     m_begin_tijd := parse_time (TVM_BEGINT r) (time_hm 0 0);
     m_eind_tijd := parse_time (TVM_EINDT r) (time_hm 23 59);
     m_begin_datum := Some (or_str (TVM_BEGIND r) "");
     m_eind_datum := Some (or_str (TVM_EINDD r) "");
     m_opmerking := Some (escape_quote (or_str (TVM_OPMERK r) "")) |}.

(** The modes appended by the temporary-measure block. *)
Definition tvm_modes (r : ShapeRecord) : list mode :=
  if existsb str_truthy
       [TVM_BEGINT r; TVM_EINDT r; TVM_BEGIND r; TVM_EINDD r; TVM_OPMERK r]
  then [tvm_mode r]
  else [].

(** The modes appended by the BEGINTIJD1/EINDTIJD1 block. *)
Definition slot1_modes (r : ShapeRecord) : list mode :=
  if existsb str_truthy [BEGINTIJD1 r; EINDTIJD1 r] then
    let begin_tijd := parse_time (BEGINTIJD1 r) (time_hm 0 0) in
    let eind_tijd := parse_time (EINDTIJD1 r) (time_hm 23 59) in
    if time_ltb begin_tijd eind_tijd then [slot_mode r begin_tijd eind_tijd]
    else [slot_mode r (time_hm 0 0) eind_tijd;
          slot_mode r begin_tijd (time_hm 23 59)]
  else [].

(** The modes appended by the BEGINTIJD2/EINDTIJD2 block. *)
Definition slot2_modes (r : ShapeRecord) : list mode :=
  if existsb str_truthy [BEGINTIJD2 r; EINDTIJD2 r] then
    [slot_mode r (parse_time (BEGINTIJD2 r) (time_hm 0 0))
                 (parse_time (EINDTIJD2 r) (time_hm 23 59))]
  else [].

Definition get_modes (row : ShapeRow) : list mode :=
  let modes := [] in
  let modes := modes ++ tvm_modes (record row) in
  let modes := modes ++ slot1_modes (record row) in
  let modes := modes ++ slot2_modes (record row) in
  modes.

(** ** create_regimes *)

Definition base_data (r : ShapeRecord) : regime :=
  {| parent_id := or_str (Some (PARKEER_ID r)) "";
     soort := "FISCAAL";
     e_type := "";
     bord := "";
     begin_tijd := time_hm 0 0;
     eind_tijd := time_hm 23 59;
     opmerking := or_str (OPMERKING r) "";
     dagen := WEEK_DAYS;
     kenteken := None;
     begin_datum := None;
     eind_datum := None |}.

(** The regime returned when there is no mode: [base_data] with the
    record's own soort, bord, e_type and kenteken. *)
Definition full_override (r : ShapeRecord) : regime :=
  let x := base_data r in
  mkRegime (parent_id x) (or_str (SOORT r) "FISCAAL") (or_str (E_TYPE r) "")
    (or_str (BORD r) "") (begin_tijd x) (eind_tijd x) (opmerking x) (dagen x)
    (KENTEKEN r) (begin_datum x) (eind_datum x).

(** The filler emitted before a mode that begins after [mode_start]. *)
Definition sod_mode (base : regime) (days : list string) (mode_start : time)
    (m : mode) : regime :=
  set_eind_tijd (set_begin_tijd (set_dagen base days) mode_start)
    (remove_a_minute (m_begin_tijd m)).

Definition mode_data (base : regime) (days : list string) (m : mode) : regime :=
  set_dagen (update_mode base m) days.

(** The filler emitted after the last mode. *)
Definition eod_mode (base : regime) (days : list string) (m : mode) : regime :=
  set_begin_tijd (set_dagen base days) (add_a_minute (m_eind_tijd m)).

(** One turn of the loop over the modes; the state is [output] and
    [mode_start]. *)
Definition regime_step (base : regime) (days : list string)
    (st : list regime * time) (m : mode) : list regime * time :=
  let output := fst st in
  let mode_start := snd st in
  let output :=
    if time_gtb (m_begin_tijd m) mode_start
    then output ++ [sod_mode base days mode_start m]
    else output in
  let output := output ++ [mode_data base days m] in
  (output, add_a_minute (m_eind_tijd m)).

Definition create_regimes (row : ShapeRow) : list regime :=
  let days := days_from_row row in
  let base := base_data (record row) in
  let mode_start := time_hm 0 0 in
  let mode_end := time_hm 23 59 in
  match get_modes row with
  | [] => [full_override (record row)]
  | m0 :: rest =>
      let modes := m0 :: rest in
      let output := fst (fold_left (regime_step base days) modes ([], mode_start)) in
      let mode := last modes m0 in
      if time_ltb (m_eind_tijd mode) mode_end
      then output ++ [eod_mode base days mode]
      else output
  end.

(** ** create_parkeervaak *)

(** The values formatted into one tuple of the parkeervakken insert. *)
Record parkeervaak_values : Type := mkParkeervaak
  { pv_parkeer_id : string;
    pv_buurtcode : option string;
    pv_straatnaam : string;
    pv_soort : string;
    pv_type : string;
    pv_aantal : pyval;
    pv_geometry : string;
    pv_e_type : string }.

Definition create_parkeervaak (row : ShapeRow) (soort_ : string)
    : parkeervaak_values :=
  let geometry :=
    if String.eqb (shapeTypeName (shape row)) "POLYGON"
    then String.append "ST_GeometryFromText('"
           (String.append (polygon_text (shape row)) "', 28992)")
    else "''" in
  {| pv_parkeer_id := PARKEER_ID (record row);
     pv_buurtcode := BUURTCODE (record row);
     pv_straatnaam := escape_quote (STRAATNAAM (record row));
     pv_soort := or_str (SOORT (record row)) soort_;
     pv_type := or_str (TYPE (record row)) "";
     pv_aantal := AANTAL (record row);
     pv_geometry := geometry;
     pv_e_type := or_str (E_TYPE (record row)) "" |}.

(** ** import_data *)

(** The values formatted into one tuple of the regimes insert. *)
Record regime_values : Type := mkRegimeValues
  { rv_parent_id : string;
    rv_soort : string;
    rv_e_type : string;
    rv_e_type_description : string;
    rv_bord : string;
    rv_begin_tijd : string;
    rv_eind_tijd : string;
    rv_opmerking : string;
    rv_dagen : string;
    rv_kenteken : string;
    rv_begin_datum : string;
    rv_eind_datum : string;
    rv_aantal : pyval }.

Definition format_regime (row : ShapeRow) (x : regime) : regime_values :=
  {| rv_parent_id := PARKEER_ID (record row);
     rv_soort := soort x;
     rv_e_type := e_type x;
     rv_e_type_description := dict_get E_TYPES (e_type x) "";
     rv_bord := bord x;
     rv_begin_tijd := strftime_HM (begin_tijd x);
     rv_eind_tijd := strftime_HM (eind_tijd x);
     rv_opmerking := opmerking x;
     rv_dagen :=
       String.append "'{"
         (String.append
            (join "," (map (fun day => String.append dquote (String.append day dquote))
                           (dagen x)))
            "}'");
     rv_kenteken := quoted_or_NULL (kenteken x);
     rv_begin_datum := quoted_or_NULL (begin_datum x);
     rv_eind_datum := quoted_or_NULL (eind_datum x);
     rv_aantal := AANTAL (record row) |}.

(** The soort handed to [create_parkeervaak] for a row. *)
Definition regimes_soort (regimes : list regime) : string :=
  match regimes with
  | [x] => soort x
  | _ => "FISCAAL"
  end.

(** The lists the loop of [import_data] grows; [ids] is the caller's list,
    shared between the files of one run. *)
Record import_state : Type := mkImport
  { ids : list Z;
    parkeervakken_sql : list parkeervaak_values;
    regimes_sql : list regime_values;
    duplicates : list string }.

(** One turn of the loop over the rows. [None]: [int] raised. *)
Definition import_row (st : import_state) (row : ShapeRow)
    : option import_state :=
  match py_int (PARKEER_ID (record row)) with
  | None => None
  | Some n =>
      if existsb (Z.eqb n) (ids st)
      then Some (mkImport (ids st) (parkeervakken_sql st) (regimes_sql st)
                   (duplicates st ++ [PARKEER_ID (record row)]))
      else
        let ids' := ids st ++ [n] in
        let regimes := create_regimes row in
        let soort_ := regimes_soort regimes in
        Some (mkImport ids'
                (parkeervakken_sql st ++ [create_parkeervaak row soort_])
                (regimes_sql st ++ map (format_regime row) regimes)
                (duplicates st))
  end.

Fixpoint import_rows (st : import_state) (rows : list ShapeRow)
    : option import_state :=
  match rows with
  | [] => Some st
  | row :: rest =>
      match import_row st row with
      | Some st' => import_rows st' rest
      | None => None
      end
  end.

(** [import_data(shp_file, ids)] on the rows of the file: the final lists,
    of which [duplicates] is the value returned, [ids] the caller's list
    after the call and the two SQL lists what is handed to the database. *)
Definition import_data (rows : list ShapeRow) (ids0 : list Z)
    : option import_state :=
  import_rows (mkImport ids0 [] [] []) rows.

(** [run_imports]: the files share one [ids] list, which starts empty; the
    result is the state of every file's import. *)
Fixpoint run_files (ids0 : list Z) (files : list (list ShapeRow))
    : option (list import_state) :=
  match files with
  | [] => Some []
  | rows :: rest =>
      match import_data rows ids0 with
      | Some st =>
          match run_files (ids st) rest with
          | Some sts => Some (st :: sts)
          | None => None
          end
      | None => None
      end
  end.

Definition run_imports (files : list (list ShapeRow))
    : option (list import_state) :=
  run_files [] files.

(** ** The same functions with the exceptions that leave them

    [parse_time] catches [ParserError] only. [parse_time], [get_modes],
    [create_regimes] and [import_row] above are the values these functions
    return when no other exception leaves a parser call; the definitions
    below follow the same code and keep track of such an exception, raised
    at the first parser call that meets one. *)

(** The exception other than [ParserError] that
    [dateutil.parser.parse(s)] raises, if it raises one; for such a string
    [dateutil_parse s] is not consulted. *)
Variable dateutil_uncaught : string -> option exception.

Definition parse_time_run (value : option string) (default : time)
    : exception + time :=
  match value with
  | Some value =>
      match dateutil_uncaught (time_text value) with
      | Some e => inl e
      | None =>
          match dateutil_parse (time_text value) with
          | Some parsed => inr parsed
          | None => inr default
          end
      end
  | None => inr default
  end.

(** The temporary-measure mode, given its two parsed times. *)
Definition tvm_mode_at (r : ShapeRecord) (b e : time) : mode :=
  {| m_soort := or_str (E_TYPE r) "FISCAAL";
     m_bord := or_str (BORD r) "";
     m_e_type := or_str (E_TYPE r) "";
     m_kenteken := KENTEKEN r;
     m_begin_tijd := b;
     m_eind_tijd := e;
     m_begin_datum := Some (or_str (TVM_BEGIND r) "");
     m_eind_datum := Some (or_str (TVM_EINDD r) "");
     m_opmerking := Some (escape_quote (or_str (TVM_OPMERK r) "")) |}.

Definition tvm_modes_run (r : ShapeRecord) : exception + list mode :=
  if existsb str_truthy
       [TVM_BEGINT r; TVM_EINDT r; TVM_BEGIND r; TVM_EINDD r; TVM_OPMERK r]
  then
    bind (parse_time_run (TVM_BEGINT r) (time_hm 0 0)) (fun begin_tijd =>
    bind (parse_time_run (TVM_EINDT r) (time_hm 23 59)) (fun eind_tijd =>
    inr [tvm_mode_at r begin_tijd eind_tijd]))
  else inr [].

Definition slot1_modes_run (r : ShapeRecord) : exception + list mode :=
  if existsb str_truthy [BEGINTIJD1 r; EINDTIJD1 r] then
    bind (parse_time_run (BEGINTIJD1 r) (time_hm 0 0)) (fun begin_tijd =>
    bind (parse_time_run (EINDTIJD1 r) (time_hm 23 59)) (fun eind_tijd =>
    inr (if time_ltb begin_tijd eind_tijd
         then [slot_mode r begin_tijd eind_tijd]
         else [slot_mode r (time_hm 0 0) eind_tijd;
               slot_mode r begin_tijd (time_hm 23 59)])))
  else inr [].

Definition slot2_modes_run (r : ShapeRecord) : exception + list mode :=
  if existsb str_truthy [BEGINTIJD2 r; EINDTIJD2 r] then
    bind (parse_time_run (BEGINTIJD2 r) (time_hm 0 0)) (fun begin_tijd =>
    bind (parse_time_run (EINDTIJD2 r) (time_hm 23 59)) (fun eind_tijd =>
    inr [slot_mode r begin_tijd eind_tijd]))
  else inr [].

Definition get_modes_run (row : ShapeRow) : exception + list mode :=
  bind (tvm_modes_run (record row)) (fun tvm =>
  bind (slot1_modes_run (record row)) (fun slot1 =>
  bind (slot2_modes_run (record row)) (fun slot2 =>
  inr (([] ++ tvm) ++ slot1 ++ slot2)))).

(** What [create_regimes] does with the modes once [get_modes] returned
    them. *)
Definition regimes_from_modes (row : ShapeRow) (modes : list mode)
    : list regime :=
  let days := days_from_row row in
  let base := base_data (record row) in
  let mode_start := time_hm 0 0 in
  let mode_end := time_hm 23 59 in
  match modes with
  | [] => [full_override (record row)]
  | m0 :: rest =>
      let output :=
        fst (fold_left (regime_step base days) modes ([], mode_start)) in
      let mode := last modes m0 in
      if time_ltb (m_eind_tijd mode) mode_end
      then output ++ [eod_mode base days mode]
      else output
  end.

Definition create_regimes_run (row : ShapeRow) : exception + list regime :=
  bind (get_modes_run row) (fun modes => inr (regimes_from_modes row modes)).

(** One turn of the loop of [import_data]: [int] may raise [ValueError]; a
    duplicate is passed over before anything else is looked at; for a new
    identifier [create_regimes] may raise. *)
Definition import_row_run (st : import_state) (row : ShapeRow)
    : exception + import_state :=
  match py_int (PARKEER_ID (record row)) with
  | None => inl ValueError
  | Some n =>
      if existsb (Z.eqb n) (ids st)
      then inr (mkImport (ids st) (parkeervakken_sql st) (regimes_sql st)
                  (duplicates st ++ [PARKEER_ID (record row)]))
      else
        let ids' := ids st ++ [n] in
        bind (create_regimes_run row) (fun regimes =>
        let soort_ := regimes_soort regimes in
        inr (mkImport ids'
               (parkeervakken_sql st ++ [create_parkeervaak row soort_])
               (regimes_sql st ++ map (format_regime row) regimes)
               (duplicates st)))
  end.

Fixpoint import_rows_run (st : import_state) (rows : list ShapeRow)
    : exception + import_state :=
  match rows with
  | [] => inr st
  | row :: rest =>
      bind (import_row_run st row) (fun st' => import_rows_run st' rest)
  end.

Definition import_data_run (rows : list ShapeRow) (ids0 : list Z)
    : exception + import_state :=
  import_rows_run (mkImport ids0 [] [] []) rows.

(** The attributes of a record that [get_modes] may hand to
    [parse_time]. *)
Definition time_attributes (r : ShapeRecord) : list (option string) :=
  [TVM_BEGINT r; TVM_EINDT r; BEGINTIJD1 r; EINDTIJD1 r;
   BEGINTIJD2 r; EINDTIJD2 r].

(** ** Notions used in the statements *)

(** The soort of the spot that [import_data] writes for a row. *)
Definition spot_soort (row : ShapeRow) : string :=
  pv_soort (create_parkeervaak row (regimes_soort (create_regimes row))).

(** A mode for which [create_regimes] emits no filler when it is the only
    one: it does not begin after 00:00 and does not end before 23:59. *)
Definition whole_day (m : mode) : bool :=
  negb (time_gtb (m_begin_tijd m) (time_hm 0 0))
  && negb (time_ltb (m_eind_tijd m) (time_hm 23 59)).

(** A time of day in whole minutes, as a string HH:MM gives. *)
Definition whole_minutes (t : time) : Prop :=
  valid_time t /\ second t = 0 /\ microsecond t = 0.

(** Minutes since midnight. *)
Definition minute_of_day (t : time) : Z := hour t * 60 + minute t.

(** [y] begins one minute after [x] ends. *)
Definition follows (x y : regime) : Prop :=
  time_to_us (begin_tijd y) = time_to_us (eind_tijd x) + US_PER_MINUTE.

(** Every adjacent pair of the list satisfies
    [next.begin == previous.end + 1 minute]. *)
Fixpoint contiguous (l : list regime) : Prop :=
  match l with
  | x :: rest =>
      match rest with
      | y :: _ => follows x y /\ contiguous rest
      | [] => True
      end
  | [] => True
  end.

(** Ordering a list of regimes by begin time: a stable insertion sort, as
    [sorted(regimes, key=begin_tijd)] orders it. *)
Fixpoint insert_by_begin (x : regime) (l : list regime) : list regime :=
  match l with
  | [] => [x]
  | y :: rest =>
      if time_gtb (begin_tijd x) (begin_tijd y)
      then y :: insert_by_begin x rest
      else x :: y :: rest
  end.

Definition sort_by_begin (l : list regime) : list regime :=
  fold_right insert_by_begin [] l.

(** A mode in whole minutes that does not begin after it ends. *)
Definition mode_ok (m : mode) : Prop :=
  whole_minutes (m_begin_tijd m) /\ whole_minutes (m_eind_tijd m) /\
  time_gtb (m_begin_tijd m) (m_eind_tijd m) = false.

(** Every mode ends before the next one begins. *)
Fixpoint modes_separated (l : list mode) : Prop :=
  match l with
  | m :: rest =>
      match rest with
      | m' :: _ =>
          time_ltb (m_eind_tijd m) (m_begin_tijd m') = true
          /\ modes_separated rest
      | [] => True
      end
  | [] => True
  end.

(** The regimes the loop of [create_regimes] appends for a list of modes,
    from the cursor [mode_start] on. *)
Fixpoint loop_output (base : regime) (days : list string) (mode_start : time)
    (modes : list mode) : list regime :=
  match modes with
  | [] => []
  | m :: rest =>
      (if time_gtb (m_begin_tijd m) mode_start
       then [sod_mode base days mode_start m]
       else [])
      ++ mode_data base days m
      :: loop_output base days (add_a_minute (m_eind_tijd m)) rest
  end.

(** The filler after the last mode, when that mode ends before 23:59. *)
Definition eod_part (base : regime) (days : list string) (m : mode)
    : list regime :=
  if time_ltb (m_eind_tijd m) (time_hm 23 59)
  then [eod_mode base days m]
  else [].

(** No regime begins after the next one in the list. *)
Fixpoint ordered_by_begin (l : list regime) : Prop :=
  match l with
  | x :: rest =>
      match rest with
      | y :: _ =>
          time_gtb (begin_tijd x) (begin_tijd y) = false
          /\ ordered_by_begin rest
      | [] => True
      end
  | [] => True
  end.

(** A non-empty list of regimes that begins at [c], is ordered by begin
    time, has no gap between adjacent regimes and ends at 23:59. *)
Definition chain_from (c : time) (out : list regime) : Prop :=
  exists x out',
    out = x :: out' /\ begin_tijd x = c /\
    contiguous out /\ ordered_by_begin out /\
    forall d, eind_tijd (last out d) = time_hm 23 59.

(** The identifier string [s] reads as the integer [k]. *)
Definition has_id (k : Z) (s : string) : bool :=
  match py_int s with
  | Some n => n =? k
  | None => false
  end.

(** The spots and the regimes written for the identifier [k]. *)
Definition spots_with_id (k : Z) (l : list parkeervaak_values)
    : list parkeervaak_values :=
  filter (fun pv => has_id k (pv_parkeer_id pv)) l.

Definition regimes_with_id (k : Z) (l : list regime_values)
    : list regime_values :=
  filter (fun rv => has_id k (rv_parent_id rv)) l.

(** ** Notions used in the further properties *)

(** The cursor of the loop of [create_regimes] after the modes [l], when it
    was [c] before them. *)
Definition cursor_after (c : time) (l : list mode) : time :=
  match l with
  | [] => c
  | m :: _ => add_a_minute (m_eind_tijd (last l m))
  end.

(** A regime that carries no restriction of its own: FISCAAL, without sign,
    plate or dates. *)
Definition is_filler (x : regime) : Prop :=
  soort x = "FISCAAL" /\ e_type x = "" /\ bord x = "" /\
  kenteken x = None /\ begin_datum x = None /\ eind_datum x = None.

(** The regime [x] applies at minute [k] of the day. *)
Definition covers_minute (k : Z) (x : regime) : bool :=
  (minute_of_day (begin_tijd x) <=? k) && (k <=? minute_of_day (eind_tijd x)).

(** The regimes of [out], in whole minutes, lie end to end from minute [c]
    of the day to its last minute. *)
Fixpoint tiles (c : Z) (out : list regime) : Prop :=
  match out with
  | [] => c = 1440
  | x :: rest =>
      whole_minutes (begin_tijd x) /\ whole_minutes (eind_tijd x) /\
      minute_of_day (begin_tijd x) = c /\
      c <= minute_of_day (eind_tijd x) /\
      tiles (minute_of_day (eind_tijd x) + 1) rest
  end.

(** ** download_latest_export_file: the choice of the file *)

(** [name_reg.match(name) is not None], for the compiled [name_regex]. *)
Variable name_reg_match : string -> bool.

(** [dateutil.parser.parse(s)] for a last-modified stamp: the instant read,
    in microseconds on the time line; [None] when the parser raises. *)
Variable parse_instant : string -> option Z.

(** Whether the datetime that [dateutil.parser.parse(s)] returns carries a
    time zone; [>] between one that does and one that does not raises
    [TypeError]. *)
Variable stamp_aware : string -> bool.

(** An entry the loop does not skip: a zip file whose name matches. *)
Definition is_candidate (x : container_entry) : bool :=
  String.eqb (content_type x) "application/zip" && name_reg_match (name x).

(** One turn of the loop over the listing; the state is [latest]. *)
Definition latest_step (latest : option container_entry)
    (x : container_entry) : raised + option container_entry :=
  if negb (String.eqb (content_type x) "application/zip") then inr latest
  else if negb (name_reg_match (name x)) then inr latest
  else
    let latest := match latest with None => x | Some l => l end in
    match parse_instant (last_modified x),
          parse_instant (last_modified latest) with
    | Some tx, Some tl =>
        if Bool.eqb (stamp_aware (last_modified x))
                    (stamp_aware (last_modified latest))
        then inr (Some (if tx >? tl then x else latest))
        else inl TypeErrorRaised
    | _, _ => inl ParserRaised
    end.

Fixpoint latest_loop (latest : option container_entry)
    (listing : list container_entry) : raised + option container_entry :=
  match listing with
  | [] => inr latest
  | x :: rest =>
      match latest_step latest x with
      | inr latest' => latest_loop latest' rest
      | inl e => inl e
      end
  end.

(** The entry [download_latest_export_file] goes on to download and unpack
    (it returns the name of that entry), or what it raises before that. *)
Definition latest_export (listing : list container_entry)
    : raised + container_entry :=
  match latest_loop None listing with
  | inr (Some x) => inr x
  | inr None => inl AirflowException
  | inl e => inl e
  end.

(** The state of the loop is a candidate whose stamp was read. *)
Definition latest_ok (latest : option container_entry) : Prop :=
  match latest with
  | Some a =>
      is_candidate a = true /\ parse_instant (last_modified a) <> None
  | None => True
  end.

(** * Properties *)

(** ** Time of day arithmetic *)

Ltac unfold_us :=
  unfold US_PER_DAY, US_PER_HOUR, US_PER_MINUTE, US_PER_SECOND in *.

Ltac div_lia := Z.div_mod_to_equations; lia.

Lemma time_to_us_range (t : time) :
  valid_time t -> 0 <= time_to_us t < US_PER_DAY.
Proof.
  unfold valid_time, time_to_us. unfold_us. lia.
Qed.

Lemma time_of_to_us (t : time) :
  valid_time t -> time_of_us (time_to_us t) = t.
Proof.
  destruct t as [h m s u]. unfold valid_time, time_of_us, time_to_us.
  simpl. unfold_us. intros (Hh & Hm & Hs & Hu).
  f_equal; div_lia.
Qed.

Lemma time_to_of_us (n : Z) :
  0 <= n < US_PER_DAY -> time_to_us (time_of_us n) = n.
Proof.
  unfold time_of_us, time_to_us. simpl. unfold_us. intros Hn. div_lia.
Qed.

Lemma valid_time_of_us (n : Z) :
  0 <= n < US_PER_DAY -> valid_time (time_of_us n).
Proof.
  unfold valid_time, time_of_us. simpl. unfold_us. intros Hn.
  repeat split; div_lia.
Qed.

Lemma time_cmp_to_us (a b : time) :
  valid_time a -> valid_time b ->
  time_cmp a b = (time_to_us a ?= time_to_us b).
Proof.
  destruct a as [h m s u], b as [h' m' s' u'].
  unfold valid_time, time_cmp, time_to_us. simpl. unfold_us.
  intros Ha Hb.
  destruct (Z.compare_spec h h') as [Eh | Lh | Gh].
  - destruct (Z.compare_spec m m') as [Em | Lm | Gm].
    + destruct (Z.compare_spec s s') as [Es | Ls | Gs].
      * subst. destruct (Z.compare_spec u u');
          symmetry; [apply Z.compare_eq_iff | apply Z.compare_lt_iff
                    | apply Z.compare_gt_iff]; lia.
      * symmetry. apply Z.compare_lt_iff. lia.
      * symmetry. apply Z.compare_gt_iff. lia.
    + symmetry. apply Z.compare_lt_iff. lia.
    + symmetry. apply Z.compare_gt_iff. lia.
  - symmetry. apply Z.compare_lt_iff. lia.
  - symmetry. apply Z.compare_gt_iff. lia.
Qed.

Lemma time_ltb_lt (a b : time) :
  valid_time a -> valid_time b ->
  time_ltb a b = true <-> time_to_us a < time_to_us b.
Proof.
  intros Ha Hb. unfold time_ltb. rewrite time_cmp_to_us by assumption.
  destruct (Z.compare_spec (time_to_us a) (time_to_us b)); split;
    intros; try discriminate; try reflexivity; lia.
Qed.

Lemma time_gtb_gt (a b : time) :
  valid_time a -> valid_time b ->
  time_gtb a b = true <-> time_to_us b < time_to_us a.
Proof.
  intros Ha Hb. unfold time_gtb. rewrite time_cmp_to_us by assumption.
  destruct (Z.compare_spec (time_to_us a) (time_to_us b)); split;
    intros; try discriminate; try reflexivity; lia.
Qed.

Lemma time_to_us_inj (a b : time) :
  valid_time a -> valid_time b -> time_to_us a = time_to_us b -> a = b.
Proof.
  intros Ha Hb E. rewrite <- (time_of_to_us a Ha), <- (time_of_to_us b Hb).
  now rewrite E.
Qed.

Lemma add_a_minute_us (t : time) :
  valid_time t ->
  time_to_us (add_a_minute t) = (time_to_us t + US_PER_MINUTE) mod US_PER_DAY.
Proof.
  intros Ht. unfold add_a_minute, datetime_add, combine_dt, timedelta_minutes.
  cbn [dt_time dt_date]. rewrite Z.mul_1_l. apply time_to_of_us.
  apply Z.mod_pos_bound. unfold_us. lia.
Qed.

Lemma remove_a_minute_us (t : time) :
  valid_time t ->
  time_to_us (remove_a_minute t)
  = (time_to_us t - US_PER_MINUTE) mod US_PER_DAY.
Proof.
  intros Ht.
  unfold remove_a_minute, datetime_sub, datetime_add, combine_dt,
    timedelta_minutes.
  cbn [dt_time dt_date]. rewrite Z.mul_1_l, Z.add_opp_r. apply time_to_of_us.
  apply Z.mod_pos_bound. unfold_us. lia.
Qed.

Lemma valid_add_a_minute (t : time) : valid_time (add_a_minute t).
Proof.
  unfold add_a_minute, datetime_add. simpl. apply valid_time_of_us.
  apply Z.mod_pos_bound. unfold_us. lia.
Qed.

Lemma valid_remove_a_minute (t : time) : valid_time (remove_a_minute t).
Proof.
  unfold remove_a_minute, datetime_sub, datetime_add. simpl.
  apply valid_time_of_us. apply Z.mod_pos_bound. unfold_us. lia.
Qed.

Lemma add_remove_a_minute (t : time) :
  valid_time t -> add_a_minute (remove_a_minute t) = t.
Proof.
  intros Ht. apply time_to_us_inj; auto using valid_add_a_minute.
  rewrite add_a_minute_us by apply valid_remove_a_minute.
  rewrite remove_a_minute_us by assumption.
  pose proof (time_to_us_range t Ht) as Hr. revert Hr.
  generalize (time_to_us t). unfold_us. intros n Hn. div_lia.
Qed.

(** C3 (amended). The minute arithmetic works on the time of day and drops
    the date, so it wraps at midnight: one minute after 23:59 is 00:00 and
    one minute before 00:00 is 23:59. For every time of day before 23:59
    [add_a_minute] gives the time one minute later, and for every time of
    day from 00:01 on [remove_a_minute] gives the time one minute earlier. *)
Theorem minute_arithmetic_wraps_at_midnight (t : time) :
  valid_time t ->
  add_a_minute (time_hm 23 59) = time_hm 0 0 /\
  remove_a_minute (time_hm 0 0) = time_hm 23 59 /\
  (time_ltb t (time_hm 23 59) = true ->
   time_to_us (add_a_minute t) = time_to_us t + US_PER_MINUTE) /\
  (time_geb t (time_hm 0 1) = true ->
   time_to_us (remove_a_minute t) = time_to_us t - US_PER_MINUTE).
Proof.
  intros Ht. pose proof (time_to_us_range t Ht) as Hr.
  assert (V2359 : valid_time (time_hm 23 59))
    by (unfold valid_time; simpl; lia).
  assert (V0001 : valid_time (time_hm 0 1))
    by (unfold valid_time; simpl; lia).
  split; [reflexivity | split; [reflexivity | split]].
  - intros Hlt. apply time_ltb_lt in Hlt; try assumption.
    rewrite add_a_minute_us by assumption.
    apply Z.mod_small.
    change (time_to_us (time_hm 23 59)) with 86340000000 in Hlt.
    revert Hr. unfold_us. lia.
  - intros Hge. rewrite remove_a_minute_us by assumption.
    apply Z.mod_small.
    unfold time_geb in Hge. rewrite time_cmp_to_us in Hge by assumption.
    change (time_to_us (time_hm 0 1)) with 60000000 in Hge.
    destruct (Z.compare_spec (time_to_us t) 60000000)
      as [E | L | G]; try discriminate; revert Hr; unfold_us; lia.
Qed.

(** ** Day rules *)

Lemma days_from_row_ma_vr (row : ShapeRow) :
  truthy (MA_VR (record row)) = true ->
  days_from_row row = ["ma"; "di"; "wo"; "do"].
Proof.
  intros H. unfold days_from_row. rewrite H. reflexivity.
Qed.

Lemma days_from_row_ma_za (row : ShapeRow) :
  truthy (MA_VR (record row)) = false ->
  truthy (MA_ZA (record row)) = true ->
  days_from_row row = ["ma"; "di"; "wo"; "do"; "vr"].
Proof.
  intros H1 H2. unfold days_from_row. rewrite H1, H2. reflexivity.
Qed.

(** C2 (the code at the failing inputs). With the Monday-Friday flag set
    [days_from_row] returns the four days Monday to Thursday, and with only
    the Monday-Saturday flag set the five days Monday to Friday: the slices
    [WEEK_DAYS[:4]] and [WEEK_DAYS[:5]] are each one day short. *)
Theorem days_from_row_aggregates_one_day_short :
  days_from_row
    (row_of (with_aggregates (PyBool true) PyNone (blank_record "7")))
  = ["ma"; "di"; "wo"; "do"] /\
  days_from_row
    (row_of (with_aggregates PyNone (PyBool true) (blank_record "7")))
  = ["ma"; "di"; "wo"; "do"; "vr"].
Proof.
  split; reflexivity.
Qed.

(** C10 (amended). With neither aggregate flag truthy, the individual
    weekday branch is taken exactly when some weekday flag is truthy; there
    a weekday is included if and only if its flag is not None, also when the
    flag is falsy. When no weekday flag is truthy, all seven days are
    returned, whether the flags are None or falsy values. *)
Theorem days_from_row_individual_branch (row : ShapeRow) :
  truthy (MA_VR (record row)) = false ->
  truthy (MA_ZA (record row)) = false ->
  (existsb truthy (map (getattr_day (record row)) WEEK_DAYS) = true ->
   forall day,
     In day (days_from_row row) <->
     In day WEEK_DAYS /\ is_not_None (getattr_day (record row) day) = true) /\
  (existsb truthy (map (getattr_day (record row)) WEEK_DAYS) = false ->
   days_from_row row = WEEK_DAYS).
Proof.
  intros H1 H2. unfold days_from_row. rewrite H1, H2. split; intros H.
  - rewrite H. cbn [negb]. intros day. apply filter_In.
  - rewrite H. reflexivity.
Qed.

(** ** Modes *)

Lemma tvm_modes_length (r : ShapeRecord) : (List.length (tvm_modes r) <= 1)%nat.
Proof.
  unfold tvm_modes.
  destruct (existsb _ _); simpl; lia.
Qed.

Lemma slot1_modes_length (r : ShapeRecord) : (List.length (slot1_modes r) <= 2)%nat.
Proof.
  unfold slot1_modes.
  destruct (existsb _ _); [destruct (time_ltb _ _) |]; simpl; lia.
Qed.

Lemma slot2_modes_length (r : ShapeRecord) : (List.length (slot2_modes r) <= 1)%nat.
Proof.
  unfold slot2_modes.
  destruct (existsb _ _); simpl; lia.
Qed.

Lemma get_modes_blocks (row : ShapeRow) :
  get_modes row
  = tvm_modes (record row) ++ slot1_modes (record row)
      ++ slot2_modes (record row).
Proof.
  unfold get_modes. simpl. now rewrite app_assoc.
Qed.

(** C7 (amended). [get_modes] produces at most four modes: at most one for
    the temporary measure, at most two for slot 1 and at most one for
    slot 2. *)
Theorem get_modes_at_most_four (row : ShapeRow) :
  (List.length (get_modes row) <= 4)%nat /\
  (List.length (tvm_modes (record row)) <= 1)%nat /\
  (List.length (slot1_modes (record row)) <= 2)%nat /\
  (List.length (slot2_modes (record row)) <= 1)%nat.
Proof.
  pose proof (tvm_modes_length (record row)).
  pose proof (slot1_modes_length (record row)).
  pose proof (slot2_modes_length (record row)).
  rewrite get_modes_blocks, !length_app. lia.
Qed.

(** C6. When BEGINTIJD1 or EINDTIJD1 is set and the parsed begin time is not
    before the parsed end time, the slot-1 block appends exactly two modes,
    first the one from 00:00 to the end time and then the one from the
    begin time to 23:59; they stand in the mode list between the
    temporary-measure mode and the slot-2 mode. *)
Theorem slot1_overnight_split (row : ShapeRow) :
  let r := record row in
  let begin_ := parse_time (BEGINTIJD1 r) (time_hm 0 0) in
  let eind := parse_time (EINDTIJD1 r) (time_hm 23 59) in
  existsb str_truthy [BEGINTIJD1 r; EINDTIJD1 r] = true ->
  time_geb begin_ eind = true ->
  exists x y,
    slot1_modes r = [x; y] /\
    get_modes row = tvm_modes r ++ [x; y] ++ slot2_modes r /\
    m_begin_tijd x = time_hm 0 0 /\ m_eind_tijd x = eind /\
    m_begin_tijd y = begin_ /\ m_eind_tijd y = time_hm 23 59.
Proof.
  intros r begin_ eind Hany Hge.
  assert (Hlt : time_ltb begin_ eind = false).
  { unfold time_geb in Hge. unfold time_ltb.
    destruct (time_cmp begin_ eind); congruence. }
  exists (slot_mode r (time_hm 0 0) eind), (slot_mode r begin_ (time_hm 23 59)).
  assert (Hs : slot1_modes r
               = [slot_mode r (time_hm 0 0) eind;
                  slot_mode r begin_ (time_hm 23 59)]).
  { unfold slot1_modes. rewrite Hany. fold begin_ eind. now rewrite Hlt. }
  repeat split; try assumption.
  rewrite get_modes_blocks. fold r. now rewrite Hs.
Qed.

(** When the parser rejects a string with ParserError, [parse_time]
    returns the default it was given. *)
Theorem parse_time_falls_back (value : string) (default : time) :
  dateutil_parse (time_text value) = None ->
  parse_time (Some value) default = default.
Proof.
  intros H. unfold parse_time. now rewrite H.
Qed.

Lemma parse_time_parsed (value : string) (default t : time) :
  dateutil_parse (time_text value) = Some t ->
  parse_time (Some value) default = t.
Proof.
  intros H. unfold parse_time. now rewrite H.
Qed.

Lemma parse_time_None (default : time) : parse_time None default = default.
Proof. reflexivity. Qed.

(** ** Regimes *)

Lemma fold_regime_step (base : regime) (days : list string)
    (modes : list mode) (output : list regime) (mode_start : time) :
  fst (fold_left (regime_step base days) modes (output, mode_start))
  = output ++ loop_output base days mode_start modes.
Proof.
  revert output mode_start.
  induction modes as [| m rest IH]; intros output mode_start; simpl.
  - now rewrite app_nil_r.
  - unfold regime_step at 2. cbn [fst snd]. rewrite IH.
    destruct (time_gtb (m_begin_tijd m) mode_start); simpl;
      now rewrite <- !app_assoc.
Qed.

Lemma create_regimes_some_modes (row : ShapeRow) (m0 : mode)
    (rest : list mode) :
  get_modes row = m0 :: rest ->
  create_regimes row
  = loop_output (base_data (record row)) (days_from_row row) (time_hm 0 0)
      (m0 :: rest)
    ++ (if time_ltb (m_eind_tijd (last (m0 :: rest) m0)) (time_hm 23 59)
        then [eod_mode (base_data (record row)) (days_from_row row)
                (last (m0 :: rest) m0)]
        else []).
Proof.
  intros H. unfold create_regimes. rewrite H.
  rewrite fold_regime_step. cbn [app].
  destruct (time_ltb _ _); [reflexivity | now rewrite app_nil_r].
Qed.

Lemma loop_output_length (base : regime) (days : list string)
    (modes : list mode) (mode_start : time) :
  (List.length modes
   <= List.length (loop_output base days mode_start modes))%nat.
Proof.
  revert mode_start. induction modes as [| m rest IH]; intros c; simpl.
  - lia.
  - rewrite length_app. simpl. specialize (IH (add_a_minute (m_eind_tijd m))).
    lia.
Qed.

Lemma regimes_soort_long (l : list regime) :
  (2 <= List.length l)%nat -> regimes_soort l = "FISCAAL".
Proof.
  destruct l as [| x [| y l]]; simpl; try lia. reflexivity.
Qed.

Lemma or_str_idem (v : option string) (d : string) :
  or_str v (or_str v d) = or_str v d.
Proof.
  destruct v as [s |]; simpl; [| reflexivity].
  destruct (String.eqb s "") eqn:E; [reflexivity |].
  reflexivity.
Qed.

(** C5 (amended). When the mode list of a record is empty, [create_regimes]
    returns exactly one regime, from 00:00 to 23:59, whose soort is the
    record's own SOORT when that is set and FISCAAL otherwise. *)
Theorem create_regimes_no_modes (row : ShapeRow) :
  get_modes row = [] ->
  exists x,
    create_regimes row = [x] /\
    begin_tijd x = time_hm 0 0 /\
    eind_tijd x = time_hm 23 59 /\
    soort x = or_str (SOORT (record row)) "FISCAAL".
Proof.
  intros H. exists (full_override (record row)).
  unfold create_regimes. rewrite H. repeat split.
Qed.

(** C4 (amended). The soort written for the spot is the record's own SOORT
    when that is set. Otherwise it is FISCAAL, unless the mode list holds
    exactly one mode and that mode spans the whole day (so that
    [create_regimes] returns a single regime), in which case it is that
    mode's soort. *)
Theorem spot_soort_by_modes (row : ShapeRow) :
  spot_soort row
  = or_str (SOORT (record row))
      (match get_modes row with
       | [m] => if whole_day m then m_soort m else "FISCAAL"
       | _ => "FISCAAL"
       end).
Proof.
  unfold spot_soort, create_parkeervaak. cbn [pv_soort].
  destruct (get_modes row) as [| m [| m' rest]] eqn:Hm.
  - unfold create_regimes. rewrite Hm. cbn [regimes_soort full_override soort].
    apply or_str_idem.
  - f_equal. rewrite (create_regimes_some_modes row m [] Hm).
    cbn [loop_output last]. unfold whole_day.
    destruct (time_gtb (m_begin_tijd m) (time_hm 0 0));
      destruct (time_ltb (m_eind_tijd m) (time_hm 23 59)); reflexivity.
  - f_equal. apply regimes_soort_long.
    rewrite (create_regimes_some_modes row m (m' :: rest) Hm).
    rewrite length_app.
    pose proof (loop_output_length (base_data (record row))
                  (days_from_row row) (m :: m' :: rest) (time_hm 0 0)) as L.
    simpl in L |- *. lia.
Qed.

(** Every regime emitted for a record with modes carries the days of the
    record and the parent identifier of [base]. *)
Lemma loop_output_days (base : regime) (days : list string)
    (modes : list mode) (mode_start : time) :
  Forall (fun x => dagen x = days /\ parent_id x = parent_id base)
    (loop_output base days mode_start modes).
Proof.
  revert mode_start. induction modes as [| m rest IH]; intros c; simpl.
  - constructor.
  - apply Forall_app. split.
    + destruct (time_gtb (m_begin_tijd m) c); repeat constructor.
    + constructor; [split; reflexivity | apply IH].
Qed.

(** X18. For a record with modes, every emitted regime, filler or not,
    carries the day rule of the record and its identifier as parent. *)
Lemma create_regimes_days (row : ShapeRow) :
  get_modes row <> [] ->
  Forall (fun x => dagen x = days_from_row row
                   /\ parent_id x = PARKEER_ID (record row))
    (create_regimes row).
Proof.
  intros Hne. destruct (get_modes row) as [| m0 rest] eqn:Hm;
    [contradiction |].
  rewrite (create_regimes_some_modes row m0 rest Hm).
  apply Forall_app. split.
  - eapply Forall_impl; [| apply loop_output_days].
    intros x [Hd Hp]. split; [exact Hd |]. rewrite Hp.
    cbn [base_data parent_id or_str].
    now destruct (String.eqb (PARKEER_ID (record row)) "") eqn:E;
      [apply String.eqb_eq in E |].
  - destruct (time_ltb _ _); repeat constructor.
    cbn [eod_mode set_begin_tijd set_dagen parent_id base_data or_str].
    now destruct (String.eqb (PARKEER_ID (record row)) "") eqn:E;
      [apply String.eqb_eq in E |].
Qed.

(** ** Whole minutes *)

Lemma whole_minutes_us (t : time) :
  whole_minutes t ->
  time_to_us t = minute_of_day t * US_PER_MINUTE
  /\ 0 <= minute_of_day t < 1440.
Proof.
  destruct t as [h m s u]. unfold whole_minutes, valid_time, time_to_us,
    minute_of_day. simpl. unfold_us. intros (Hv & Hs & Hu). subst. lia.
Qed.

Lemma whole_minutes_of_us (k : Z) :
  0 <= k < 1440 ->
  whole_minutes (time_of_us (k * US_PER_MINUTE))
  /\ minute_of_day (time_of_us (k * US_PER_MINUTE)) = k.
Proof.
  intros Hk. unfold whole_minutes, valid_time, minute_of_day, time_of_us.
  simpl. unfold_us. repeat split; div_lia.
Qed.

Lemma whole_minutes_eq (a b : time) :
  whole_minutes a -> whole_minutes b ->
  minute_of_day a = minute_of_day b -> a = b.
Proof.
  intros Ha Hb E.
  destruct (whole_minutes_us a Ha) as [Ua _].
  destruct (whole_minutes_us b Hb) as [Ub _].
  apply time_to_us_inj; [apply Ha | apply Hb |]. now rewrite Ua, Ub, E.
Qed.

Lemma whole_minutes_ltb (a b : time) :
  whole_minutes a -> whole_minutes b ->
  time_ltb a b = true <-> minute_of_day a < minute_of_day b.
Proof.
  intros Ha Hb.
  destruct (whole_minutes_us a Ha) as [Ua _].
  destruct (whole_minutes_us b Hb) as [Ub _].
  rewrite time_ltb_lt by (apply Ha || apply Hb). rewrite Ua, Ub.
  unfold_us. lia.
Qed.

Lemma whole_minutes_gtb (a b : time) :
  whole_minutes a -> whole_minutes b ->
  time_gtb a b = true <-> minute_of_day b < minute_of_day a.
Proof.
  intros Ha Hb.
  destruct (whole_minutes_us a Ha) as [Ua _].
  destruct (whole_minutes_us b Hb) as [Ub _].
  rewrite time_gtb_gt by (apply Ha || apply Hb). rewrite Ua, Ub.
  unfold_us. lia.
Qed.

Lemma whole_minutes_add (t : time) :
  whole_minutes t -> minute_of_day t < 1439 ->
  whole_minutes (add_a_minute t)
  /\ minute_of_day (add_a_minute t) = minute_of_day t + 1.
Proof.
  intros Ht Hk. destruct (whole_minutes_us t Ht) as [Ut Hr].
  assert (E : add_a_minute t
              = time_of_us ((minute_of_day t + 1) * US_PER_MINUTE)).
  { unfold add_a_minute, datetime_add, combine_dt, timedelta_minutes.
    cbn [dt_time dt_date]. f_equal. rewrite Ut.
    rewrite Z.mod_small; unfold_us; lia. }
  rewrite E. apply whole_minutes_of_us. lia.
Qed.

Lemma whole_minutes_remove (t : time) :
  whole_minutes t -> 1 <= minute_of_day t ->
  whole_minutes (remove_a_minute t)
  /\ minute_of_day (remove_a_minute t) = minute_of_day t - 1.
Proof.
  intros Ht Hk. destruct (whole_minutes_us t Ht) as [Ut Hr].
  assert (E : remove_a_minute t
              = time_of_us ((minute_of_day t - 1) * US_PER_MINUTE)).
  { unfold remove_a_minute, datetime_sub, datetime_add, combine_dt,
      timedelta_minutes.
    cbn [dt_time dt_date]. f_equal. rewrite Ut.
    rewrite Z.mod_small; unfold_us; lia. }
  rewrite E. apply whole_minutes_of_us. lia.
Qed.

Lemma whole_minutes_hm (h m : Z) :
  0 <= h < 24 -> 0 <= m < 60 ->
  whole_minutes (time_hm h m) /\ minute_of_day (time_hm h m) = h * 60 + m.
Proof.
  intros Hh Hm. unfold whole_minutes, valid_time, minute_of_day. simpl. lia.
Qed.

(** ** The emitted sequence is a chain *)

Lemma chain_single (x : regime) :
  eind_tijd x = time_hm 23 59 -> chain_from (begin_tijd x) [x].
Proof.
  intros H. exists x, []. simpl. auto.
Qed.

Lemma chain_cons (x : regime) (c : time) (out : list regime) :
  chain_from c out ->
  time_to_us c = time_to_us (eind_tijd x) + US_PER_MINUTE ->
  time_gtb (begin_tijd x) c = false ->
  chain_from (begin_tijd x) (x :: out).
Proof.
  intros (y & out' & -> & <- & Hc & Ho & Hl) Hf Hg.
  exists x, (y :: out'). repeat split; assumption.
Qed.

Lemma sort_ordered (l : list regime) :
  ordered_by_begin l -> sort_by_begin l = l.
Proof.
  induction l as [| x rest IH]; [reflexivity |].
  intros H. cbn [sort_by_begin fold_right].
  fold (sort_by_begin rest).
  destruct rest as [| y rest']; [reflexivity |].
  destruct H as [Hxy Hrest]. rewrite (IH Hrest).
  cbn [insert_by_begin]. now rewrite Hxy.
Qed.

Lemma loop_output_chain (base : regime) (days : list string) :
  eind_tijd base = time_hm 23 59 ->
  forall (modes : list mode) (c : time) (d : mode),
    modes <> [] ->
    Forall mode_ok modes ->
    modes_separated modes ->
    whole_minutes c ->
    (forall m rest, modes = m :: rest -> time_gtb c (m_begin_tijd m) = false) ->
    chain_from c
      (loop_output base days c modes ++ eod_part base days (last modes d)).
Proof.
  intros Hbase modes.
  induction modes as [| m rest IH]; intros c d Hne Hok Hsep Hc Hle;
    [contradiction |].
  inversion Hok as [| ? ? (Hb & He & Hbe) Hok' ]; subst.
  specialize (Hle m rest eq_refl).
  destruct (whole_minutes_us _ Hb) as [Ub Rb].
  destruct (whole_minutes_us _ He) as [Ue Re].
  destruct (whole_minutes_us _ Hc) as [Uc Rc].
  assert (Lbe : minute_of_day (m_begin_tijd m) <= minute_of_day (m_eind_tijd m)).
  { destruct (Z_lt_le_dec (minute_of_day (m_eind_tijd m))
                (minute_of_day (m_begin_tijd m))) as [L | L]; [| exact L].
    apply (whole_minutes_gtb _ _ Hb He) in L. congruence. }
  assert (Lcb : minute_of_day c <= minute_of_day (m_begin_tijd m)).
  { destruct (Z_lt_le_dec (minute_of_day (m_begin_tijd m))
                (minute_of_day c)) as [L | L]; [| exact L].
    apply (whole_minutes_gtb _ _ Hc Hb) in L. congruence. }
  (* the mode itself and what follows it *)
  assert (Htail : chain_from (m_begin_tijd m)
            (mode_data base days m
             :: (loop_output base days (add_a_minute (m_eind_tijd m)) rest
                 ++ eod_part base days (last (m :: rest) d)))).
  { destruct rest as [| m' rest'].
    - cbn [loop_output app last]. unfold eod_part.
      destruct (time_ltb (m_eind_tijd m) (time_hm 23 59)) eqn:Hlt.
      + destruct (whole_minutes_hm 23 59) as [W K]; try lia.
        apply (whole_minutes_ltb _ _ He W) in Hlt. rewrite K in Hlt.
        destruct (whole_minutes_add _ He) as [Wa Ka]; [lia |].
        destruct (whole_minutes_us _ Wa) as [Ua _].
        apply (chain_cons (mode_data base days m)
                 (add_a_minute (m_eind_tijd m))).
        * apply (chain_single (eod_mode base days m)). exact Hbase.
        * cbn [mode_data set_dagen update_mode eind_tijd].
          rewrite Ua, Ue, Ka. unfold_us. lia.
        * cbn [mode_data set_dagen update_mode begin_tijd].
          destruct (time_gtb (m_begin_tijd m) (add_a_minute (m_eind_tijd m)))
            eqn:G; [| reflexivity].
          apply (whole_minutes_gtb _ _ Hb Wa) in G. lia.
      + apply (chain_single (mode_data base days m)).
        cbn [mode_data set_dagen update_mode eind_tijd].
        destruct (whole_minutes_hm 23 59) as [W K]; try lia.
        apply (whole_minutes_eq _ _ He W). rewrite K.
        destruct (Z_lt_le_dec (minute_of_day (m_eind_tijd m))
                    (minute_of_day (time_hm 23 59))) as [L | L]; [| lia].
        apply (whole_minutes_ltb _ _ He W) in L. congruence.
    - destruct Hsep as [Hlt Hsep'].
      inversion Hok' as [| ? ? (Hb' & He' & Hbe') _ ]; subst.
      apply (whole_minutes_ltb _ _ He Hb') in Hlt.
      destruct (whole_minutes_us _ Hb') as [_ Rb'].
      destruct (whole_minutes_add _ He) as [Wa Ka]; [lia |].
      destruct (whole_minutes_us _ Wa) as [Ua _].
      change (last (m :: m' :: rest') d) with (last (m' :: rest') d).
      apply (chain_cons (mode_data base days m)
               (add_a_minute (m_eind_tijd m))).
      + apply IH; try assumption; [discriminate |].
        intros m1 rest1 E. injection E as <- <-.
        destruct (time_gtb (add_a_minute (m_eind_tijd m)) (m_begin_tijd m'))
          eqn:G; [| reflexivity].
        apply (whole_minutes_gtb _ _ Wa Hb') in G. lia.
      + cbn [mode_data set_dagen update_mode eind_tijd].
        rewrite Ua, Ue, Ka. unfold_us. lia.
      + cbn [mode_data set_dagen update_mode begin_tijd].
        destruct (time_gtb (m_begin_tijd m) (add_a_minute (m_eind_tijd m)))
          eqn:G; [| reflexivity].
        apply (whole_minutes_gtb _ _ Hb Wa) in G. lia. }
  (* the filler before the mode *)
  cbn [loop_output]. rewrite <- app_assoc. cbn [app].
  destruct (time_gtb (m_begin_tijd m) c) eqn:G; cbn [app].
  - apply (whole_minutes_gtb _ _ Hb Hc) in G.
    destruct (whole_minutes_remove _ Hb) as [Wr Kr]; [lia |].
    destruct (whole_minutes_us _ Wr) as [Ur _].
    change c with (begin_tijd (sod_mode base days c m)) at 1.
    apply (chain_cons (sod_mode base days c m) (m_begin_tijd m)).
    + exact Htail.
    + cbn [sod_mode set_eind_tijd eind_tijd]. rewrite Ur, Ub, Kr.
      unfold_us. lia.
    + cbn [sod_mode set_eind_tijd set_begin_tijd set_dagen begin_tijd].
      exact Hle.
  - assert (E : m_begin_tijd m = c).
    { apply (whole_minutes_eq _ _ Hb Hc).
      destruct (Z_lt_le_dec (minute_of_day c) (minute_of_day (m_begin_tijd m)))
        as [L | L]; [| lia].
      apply (whole_minutes_gtb _ _ Hb Hc) in L. congruence. }
    rewrite <- E. exact Htail.
Qed.

(** C1 (amended). For every record that yields at least one mode: when the
    times of its modes are whole minutes, no mode begins after it ends and
    every mode ends before the next mode of the list begins, the emitted
    regime sequence is ordered by begin time as emitted, begins at 00:00,
    ends at 23:59, and every adjacent pair satisfies
    [next.begin == previous.end + 1 minute]. *)
Theorem create_regimes_contiguous (row : ShapeRow) :
  get_modes row <> [] ->
  Forall mode_ok (get_modes row) ->
  modes_separated (get_modes row) ->
  let out := create_regimes row in
  sort_by_begin out = out /\
  contiguous (sort_by_begin out) /\
  out <> [] /\
  (forall d, begin_tijd (hd d out) = time_hm 0 0) /\
  (forall d, eind_tijd (last out d) = time_hm 23 59).
Proof.
  intros Hne Hok Hsep out.
  destruct (get_modes row) as [| m0 rest] eqn:Hm; [contradiction |].
  assert (Hchain : chain_from (time_hm 0 0) out).
  { unfold out. rewrite (create_regimes_some_modes row m0 rest Hm).
    apply (loop_output_chain (base_data (record row)) (days_from_row row)
             eq_refl (m0 :: rest) (time_hm 0 0) m0 Hne Hok Hsep).
    - apply whole_minutes_hm; lia.
    - intros m rest' E. injection E as <- <-.
      inversion Hok as [| ? ? (Hb & _) _ ]; subst.
      destruct (time_gtb (time_hm 0 0) (m_begin_tijd m0)) eqn:G;
        [| reflexivity].
      destruct (whole_minutes_hm 0 0) as [W K]; try lia.
      apply (whole_minutes_gtb _ _ W Hb) in G.
      destruct (whole_minutes_us _ Hb) as [_ R]. lia. }
  destruct Hchain as (x & out' & E & Hx & Hc & Ho & Hl).
  rewrite (sort_ordered out Ho).
  repeat split; try assumption.
  - rewrite E. discriminate.
  - intros d. rewrite E. exact Hx.
Qed.

(** ** The row loop of import_data *)

Lemma existsb_eqb_In (n : Z) (l : list Z) :
  existsb (Z.eqb n) l = true <-> In n l.
Proof.
  rewrite existsb_exists. split.
  - intros (x & Hx & E). apply Z.eqb_eq in E. now subst.
  - intros H. exists n. split; [assumption | apply Z.eqb_refl].
Qed.

Lemma import_row_cases (st st' : import_state) (row : ShapeRow) :
  import_row st row = Some st' ->
  exists n,
    py_int (PARKEER_ID (record row)) = Some n /\
    ((In n (ids st) /\
      st' = mkImport (ids st) (parkeervakken_sql st) (regimes_sql st)
              (duplicates st ++ [PARKEER_ID (record row)]))
     \/
     (~ In n (ids st) /\
      st' = mkImport (ids st ++ [n])
              (parkeervakken_sql st
               ++ [create_parkeervaak row (regimes_soort (create_regimes row))])
              (regimes_sql st ++ map (format_regime row) (create_regimes row))
              (duplicates st))).
Proof.
  unfold import_row.
  destruct (py_int (PARKEER_ID (record row))) as [n |]; [| discriminate].
  destruct (existsb (Z.eqb n) (ids st)) eqn:E; intros H;
    injection H as <-; exists n; split; try reflexivity.
  - left. split; [now apply existsb_eqb_In | reflexivity].
  - right. split; [| reflexivity].
    intros Hin. apply existsb_eqb_In in Hin. congruence.
Qed.

Lemma import_rows_app (st : import_state) (l l' : list ShapeRow) :
  import_rows st (l ++ l')
  = match import_rows st l with
    | Some st' => import_rows st' l'
    | None => None
    end.
Proof.
  revert st. induction l as [| row l IH]; intros st; simpl; [reflexivity |].
  destruct (import_row st row); [apply IH | reflexivity].
Qed.

(** The loop ends without an exception when every identifier reads as an
    integer. *)
Lemma import_rows_total (rows : list ShapeRow) (st : import_state) :
  (forall row, In row rows -> py_int (PARKEER_ID (record row)) <> None) ->
  exists st', import_rows st rows = Some st'.
Proof.
  revert st. induction rows as [| row rows IH]; intros st H; simpl.
  - now exists st.
  - assert (Hrow := H row (or_introl eq_refl)).
    unfold import_row.
    destruct (py_int (PARKEER_ID (record row))) as [n |]; [| congruence].
    destruct (existsb (Z.eqb n) (ids st));
      apply IH; intros r Hr; apply H; now right.
Qed.

Lemma regimes_with_id_format (k : Z) (row : ShapeRow) (l : list regime) :
  regimes_with_id k (map (format_regime row) l)
  = if has_id k (PARKEER_ID (record row))
    then map (format_regime row) l
    else [].
Proof.
  unfold regimes_with_id.
  induction l as [| x l IH]; simpl.
  - now destruct (has_id k (PARKEER_ID (record row))).
  - rewrite IH. now destruct (has_id k (PARKEER_ID (record row))).
Qed.

Lemma has_id_other (k n : Z) (s : string) :
  py_int s = Some n -> n <> k -> has_id k s = false.
Proof.
  intros H Hn. unfold has_id. rewrite H. now apply Z.eqb_neq.
Qed.

Lemma has_id_same (k : Z) (s : string) :
  py_int s = Some k -> has_id k s = true.
Proof.
  intros H. unfold has_id. rewrite H. apply Z.eqb_refl.
Qed.

(** Rows with other identifiers leave what is known of [k] untouched. *)
Lemma import_rows_absent (k : Z) (rows : list ShapeRow) :
  forall st st',
    (forall row, In row rows -> py_int (PARKEER_ID (record row)) <> Some k) ->
    ~ In k (ids st) ->
    import_rows st rows = Some st' ->
    ~ In k (ids st') /\
    spots_with_id k (parkeervakken_sql st')
    = spots_with_id k (parkeervakken_sql st) /\
    regimes_with_id k (regimes_sql st')
    = regimes_with_id k (regimes_sql st).
Proof.
  induction rows as [| row rows IH]; intros st st' Hrows Hk H; simpl in H.
  - injection H as <-. auto.
  - destruct (import_row st row) as [st1 |] eqn:E1; [| discriminate].
    assert (Hrows' : forall r, In r rows ->
                       py_int (PARKEER_ID (record r)) <> Some k)
      by (intros r Hr; apply Hrows; now right).
    destruct (import_row_cases _ _ _ E1) as (n & Hn & [[_ E] | [_ E]]).
    + assert (Hk1 : ~ In k (ids st1)) by (rewrite E; exact Hk).
      destruct (IH st1 st' Hrows' Hk1 H) as (Hk' & Hs & Hr).
      rewrite E in Hs, Hr. cbn [parkeervakken_sql regimes_sql] in Hs, Hr.
      auto.
    + assert (Hnk : n <> k).
      { intros ->. exact (Hrows row (or_introl eq_refl) Hn). }
      assert (Hk1 : ~ In k (ids st1)).
      { rewrite E. cbn [ids]. intros Hin.
        apply in_app_or in Hin. destruct Hin as [Hin | [Hin | []]]; auto. }
      destruct (IH st1 st' Hrows' Hk1 H) as (Hk' & Hs & Hr).
      rewrite E in Hs, Hr. cbn [parkeervakken_sql regimes_sql] in Hs, Hr.
      split; [exact Hk' |].
      split.
      * rewrite Hs. unfold spots_with_id. rewrite filter_app.
        cbn [filter create_parkeervaak pv_parkeer_id].
        rewrite (has_id_other k n _ Hn Hnk). apply app_nil_r.
      * rewrite Hr. unfold regimes_with_id at 1. rewrite filter_app.
        fold (regimes_with_id k (regimes_sql st)).
        fold (regimes_with_id k
                (map (format_regime row) (create_regimes row))).
        rewrite regimes_with_id_format, (has_id_other k n _ Hn Hnk).
        apply app_nil_r.
Qed.

(** Once [k] is in [ids], no row adds output for [k], and every row with
    that identifier is appended to the duplicates. *)
Lemma import_rows_present (k : Z) (rows : list ShapeRow) :
  forall st st',
    In k (ids st) ->
    import_rows st rows = Some st' ->
    spots_with_id k (parkeervakken_sql st')
    = spots_with_id k (parkeervakken_sql st) /\
    regimes_with_id k (regimes_sql st')
    = regimes_with_id k (regimes_sql st) /\
    incl (duplicates st) (duplicates st') /\
    (forall row,
       In row rows -> py_int (PARKEER_ID (record row)) = Some k ->
       In (PARKEER_ID (record row)) (duplicates st')).
Proof.
  induction rows as [| row rows IH]; intros st st' Hk H; simpl in H.
  - injection H as <-. repeat split; try apply incl_refl.
    intros row [].
  - destruct (import_row st row) as [st1 |] eqn:E1; [| discriminate].
    destruct (import_row_cases _ _ _ E1) as (n & Hn & [[Hin E] | [Hnin E]]).
    + assert (Hk1 : In k (ids st1)) by (rewrite E; exact Hk).
      destruct (IH st1 st' Hk1 H) as (Hs & Hr & Hd & Hrows).
      rewrite E in Hs, Hr, Hd.
      cbn [parkeervakken_sql regimes_sql duplicates] in Hs, Hr, Hd.
      repeat split; try assumption.
      * intros x Hx. apply Hd. apply in_or_app. now left.
      * intros r [<- | Hr'] Hrk; [| now apply Hrows].
        apply Hd. apply in_or_app. right. now left.
    + assert (Hnk : n <> k) by (intros ->; contradiction).
      assert (Hk1 : In k (ids st1)).
      { rewrite E. cbn [ids]. apply in_or_app. now left. }
      destruct (IH st1 st' Hk1 H) as (Hs & Hr & Hd & Hrows).
      rewrite E in Hs, Hr, Hd.
      cbn [parkeervakken_sql regimes_sql duplicates] in Hs, Hr, Hd.
      repeat split; try assumption.
      * rewrite Hs. unfold spots_with_id. rewrite filter_app.
        cbn [filter create_parkeervaak pv_parkeer_id].
        rewrite (has_id_other k n _ Hn Hnk). apply app_nil_r.
      * rewrite Hr. unfold regimes_with_id at 1. rewrite filter_app.
        fold (regimes_with_id k (regimes_sql st)).
        fold (regimes_with_id k
                (map (format_regime row) (create_regimes row))).
        rewrite regimes_with_id_format, (has_id_other k n _ Hn Hnk).
        apply app_nil_r.
      * intros r [<- | Hr'] Hrk; [| now apply Hrows].
        congruence.
Qed.

(** A row whose identifier is new is written with the soort [spot_soort]. *)
Lemma import_row_new_spot (st : import_state) (row : ShapeRow) (n : Z) :
  py_int (PARKEER_ID (record row)) = Some n ->
  ~ In n (ids st) ->
  exists st' pv,
    import_row st row = Some st' /\
    parkeervakken_sql st' = parkeervakken_sql st ++ [pv] /\
    pv_parkeer_id pv = PARKEER_ID (record row) /\
    pv_soort pv = spot_soort row.
Proof.
  intros Hn Hnin. unfold import_row. rewrite Hn.
  destruct (existsb (Z.eqb n) (ids st)) eqn:E.
  - apply existsb_eqb_In in E. contradiction.
  - eexists. eexists. split; [reflexivity |]. cbn [parkeervakken_sql].
    split; [reflexivity |]. split; reflexivity.
Qed.

(** The values of a loop that goes through: if two rows of the file carry
    the same identifier, which is not in [ids] when the file is read and
    which no earlier row of the file carries, then the spot and the regimes
    written for that identifier are those of the first row alone, and the
    identifier of the second row is in the duplicates. *)
Theorem import_data_skips_duplicate (ids0 : list Z) (k : Z)
    (l1 l2 l3 : list ShapeRow) (a b : ShapeRow) :
  let rows := l1 ++ a :: l2 ++ b :: l3 in
  (forall row, In row rows -> py_int (PARKEER_ID (record row)) <> None) ->
  py_int (PARKEER_ID (record a)) = Some k ->
  py_int (PARKEER_ID (record b)) = Some k ->
  ~ In k ids0 ->
  (forall row, In row l1 -> py_int (PARKEER_ID (record row)) <> Some k) ->
  exists st,
    import_data rows ids0 = Some st /\
    spots_with_id k (parkeervakken_sql st)
    = [create_parkeervaak a (regimes_soort (create_regimes a))] /\
    regimes_with_id k (regimes_sql st)
    = map (format_regime a) (create_regimes a) /\
    In (PARKEER_ID (record b)) (duplicates st).
Proof.
  intros rows Hall Ha Hb Hk0 Hl1.
  destruct (import_rows_total rows (mkImport ids0 [] [] []) Hall)
    as [st Hst].
  exists st. split; [exact Hst |].
  unfold rows in Hst. rewrite import_rows_app in Hst.
  destruct (import_rows (mkImport ids0 [] [] []) l1) as [st1 |] eqn:E1;
    [| discriminate].
  destruct (import_rows_absent k l1 (mkImport ids0 [] [] []) st1 Hl1 Hk0 E1)
    as (Hk1 & Hs1 & Hr1).
  cbn [parkeervakken_sql regimes_sql] in Hs1, Hr1.
  simpl in Hst.
  destruct (import_row st1 a) as [st2 |] eqn:E2; [| discriminate].
  destruct (import_row_cases _ _ _ E2) as (n & Hn & [[Hin _] | [_ E]]).
  { rewrite Ha in Hn. injection Hn as <-. contradiction. }
  rewrite Ha in Hn. injection Hn as <-.
  assert (Hk2 : In k (ids st2)).
  { rewrite E. cbn [ids]. apply in_or_app. right. now left. }
  destruct (import_rows_present k (l2 ++ b :: l3) st2 st Hk2 Hst)
    as (Hs & Hr & _ & Hdup).
  rewrite E in Hs, Hr. cbn [parkeervakken_sql regimes_sql] in Hs, Hr.
  split; [| split].
  - rewrite Hs. unfold spots_with_id. rewrite filter_app.
    fold (spots_with_id k (parkeervakken_sql st1)). rewrite Hs1.
    cbn [spots_with_id filter create_parkeervaak pv_parkeer_id app].
    now rewrite (has_id_same k _ Ha).
  - rewrite Hr. unfold regimes_with_id at 1. rewrite filter_app.
    fold (regimes_with_id k (regimes_sql st1)).
    fold (regimes_with_id k (map (format_regime a) (create_regimes a))).
    rewrite Hr1, regimes_with_id_format, (has_id_same k _ Ha).
    reflexivity.
  - apply Hdup; [| exact Hb]. apply in_or_app. right. now left.
Qed.

(** * Further properties of the code *)

(** ** Minute arithmetic and time strings *)

Lemma remove_add_a_minute (t : time) :
  valid_time t -> remove_a_minute (add_a_minute t) = t.
Proof.
  intros Ht. apply time_to_us_inj; auto using valid_remove_a_minute.
  rewrite remove_a_minute_us by apply valid_add_a_minute.
  rewrite add_a_minute_us by assumption.
  pose proof (time_to_us_range t Ht) as Hr. revert Hr.
  generalize (time_to_us t). unfold_us. intros n Hn. div_lia.
Qed.

(** X1. On every time of day [add_a_minute] and [remove_a_minute] undo each
    other, midnight included. *)
Theorem minute_round_trip (t : time) :
  valid_time t ->
  add_a_minute (remove_a_minute t) = t /\
  remove_a_minute (add_a_minute t) = t.
Proof.
  intros Ht. split; [now apply add_remove_a_minute | now apply remove_add_a_minute].
Qed.

Lemma substring_whole (s : string) :
  String.substring 0 (String.length s) s = s.
Proof.
  induction s as [| c s IH]; simpl; [reflexivity | now rewrite IH].
Qed.

(** X2. How the two clean-ups of [parse_time] compose: a leading "va " is
    cut off once and what follows is handed to the parser as it is, so
    "va 24:00" reaches the parser as "24:00"; the bare "24:00" reaches it
    as "23:59"; and a value that is neither is handed over unchanged. *)
Theorem time_text_cases (s : string) :
  time_text (String.append "va " s) = s /\
  time_text "24:00" = "23:59" /\
  (String.eqb s "24:00" = false -> String.prefix "va " s = false ->
   time_text s = s).
Proof.
  split; [| split].
  - unfold time_text. simpl.
    replace (String.prefix "" s) with true by (now destruct s).
    rewrite Nat.sub_0_r. apply substring_whole.
  - reflexivity.
  - intros H1 H2. unfold time_text. now rewrite H1, H2.
Qed.

(** ** Day rules are lists of week days *)

Lemma is_subsequence_refl (l : list string) : is_subsequence l l = true.
Proof.
  induction l as [| x l IH]; simpl; [reflexivity |].
  now rewrite String.eqb_refl.
Qed.

Lemma is_subsequence_nil (l : list string) : is_subsequence [] l = true.
Proof. now destruct l. Qed.

Lemma is_subsequence_tail (x : string) (l l' : list string) :
  is_subsequence (x :: l) l' = true -> is_subsequence l l' = true.
Proof.
  revert x l. induction l' as [| y l' IH]; intros x l H; simpl in H.
  - discriminate.
  - destruct (String.eqb x y).
    + destruct l as [| z l]; [reflexivity |]. simpl.
      destruct (String.eqb z y); [now apply (IH z) | exact H].
    + apply IH in H. destruct l as [| z l]; [reflexivity |]. simpl.
      destruct (String.eqb z y); [now apply (IH z) | exact H].
Qed.

Lemma is_subsequence_filter (p : string -> bool) (l : list string) :
  is_subsequence (filter p l) l = true.
Proof.
  induction l as [| x l IH]; simpl; [reflexivity |].
  destruct (p x); simpl.
  - now rewrite String.eqb_refl.
  - destruct (filter p l) as [| y f] eqn:E; [reflexivity |].
    destruct (String.eqb y x); [now apply (is_subsequence_tail y) | exact IH].
Qed.

Lemma NoDup_WEEK_DAYS : NoDup WEEK_DAYS.
Proof.
  unfold WEEK_DAYS.
  repeat (constructor; [simpl; intuition discriminate |]). constructor.
Qed.

Lemma truthy_is_not_None (v : pyval) :
  truthy v = true -> is_not_None v = true.
Proof. now destruct v. Qed.

(** X3. The day rule of every record is a non-empty list of week-day codes
    without repeats, in the order of the week. *)
Theorem days_from_row_week_days (row : ShapeRow) :
  days_from_row row <> [] /\
  NoDup (days_from_row row) /\
  is_subsequence (days_from_row row) WEEK_DAYS = true.
Proof.
  unfold days_from_row.
  destruct (truthy (MA_VR (record row))).
  { split; [discriminate | split; [| reflexivity]].
    cbn [firstn WEEK_DAYS].
    repeat (constructor; [simpl; intuition discriminate |]). constructor. }
  destruct (truthy (MA_ZA (record row))).
  { split; [discriminate | split; [| reflexivity]].
    cbn [firstn WEEK_DAYS].
    repeat (constructor; [simpl; intuition discriminate |]). constructor. }
  destruct (existsb truthy (map (getattr_day (record row)) WEEK_DAYS)) eqn:E;
    cbn [negb].
  - split; [| split].
    + apply existsb_exists in E. destruct E as (v & Hv & Ht).
      apply in_map_iff in Hv. destruct Hv as (day & <- & Hd).
      intros Hnil.
      assert (Hin : In day (filter (fun d => is_not_None
                                      (getattr_day (record row) d)) WEEK_DAYS)).
      { apply filter_In. split; [exact Hd | now apply truthy_is_not_None]. }
      rewrite Hnil in Hin. contradiction.
    + apply NoDup_filter, NoDup_WEEK_DAYS.
    + apply is_subsequence_filter.
  - split; [discriminate | split; [apply NoDup_WEEK_DAYS | reflexivity]].
Qed.

(** ** Which records have modes *)

(** X4. The mode list of a record is empty exactly when none of its nine
    time attributes (the five of the temporary measure and the two of each
    slot) is set; whether the strings can be parsed plays no part. *)
Theorem get_modes_empty_iff (row : ShapeRow) :
  let r := record row in
  get_modes row = [] <->
  existsb str_truthy
    [TVM_BEGINT r; TVM_EINDT r; TVM_BEGIND r; TVM_EINDD r; TVM_OPMERK r;
     BEGINTIJD1 r; EINDTIJD1 r; BEGINTIJD2 r; EINDTIJD2 r] = false.
Proof.
  intros r. rewrite get_modes_blocks. fold r.
  unfold tvm_modes, slot1_modes, slot2_modes.
  change (existsb str_truthy
            [TVM_BEGINT r; TVM_EINDT r; TVM_BEGIND r; TVM_EINDD r;
             TVM_OPMERK r; BEGINTIJD1 r; EINDTIJD1 r; BEGINTIJD2 r;
             EINDTIJD2 r])
    with (existsb str_truthy
            ([TVM_BEGINT r; TVM_EINDT r; TVM_BEGIND r; TVM_EINDD r;
              TVM_OPMERK r] ++ [BEGINTIJD1 r; EINDTIJD1 r]
             ++ [BEGINTIJD2 r; EINDTIJD2 r])).
  rewrite !existsb_app.
  destruct (existsb str_truthy
              [TVM_BEGINT r; TVM_EINDT r; TVM_BEGIND r; TVM_EINDD r;
               TVM_OPMERK r]);
    [split; discriminate |].
  destruct (existsb str_truthy [BEGINTIJD1 r; EINDTIJD1 r]).
  { destruct (time_ltb _ _); split; discriminate. }
  destruct (existsb str_truthy [BEGINTIJD2 r; EINDTIJD2 r]);
    split; try discriminate; reflexivity.
Qed.

(** ** What create_regimes emits *)

Lemma loop_output_upper (base : regime) (days : list string)
    (modes : list mode) (mode_start : time) :
  (List.length (loop_output base days mode_start modes)
   <= 2 * List.length modes)%nat.
Proof.
  revert mode_start. induction modes as [| m rest IH]; intros c; simpl.
  - lia.
  - rewrite length_app. simpl. specialize (IH (add_a_minute (m_eind_tijd m))).
    destruct (time_gtb (m_begin_tijd m) c); simpl; lia.
Qed.

Lemma eod_part_length (base : regime) (days : list string) (m : mode) :
  (List.length (eod_part base days m) <= 1)%nat.
Proof.
  unfold eod_part. destruct (time_ltb _ _); simpl; lia.
Qed.

Lemma create_regimes_eod_part (row : ShapeRow) (m0 : mode)
    (rest : list mode) :
  get_modes row = m0 :: rest ->
  create_regimes row
  = loop_output (base_data (record row)) (days_from_row row) (time_hm 0 0)
      (m0 :: rest)
    ++ eod_part (base_data (record row)) (days_from_row row)
         (last (m0 :: rest) m0).
Proof.
  intros H. now rewrite (create_regimes_some_modes row m0 rest H).
Qed.

(** X5. [create_regimes] never returns an empty list and never more than
    nine regimes; for a record with modes it returns at least as many
    regimes as modes and at most twice as many plus one. *)
Theorem create_regimes_count (row : ShapeRow) :
  (1 <= List.length (create_regimes row) <= 9)%nat /\
  (get_modes row <> [] ->
   List.length (get_modes row) <= List.length (create_regimes row)
   <= 2 * List.length (get_modes row) + 1)%nat.
Proof.
  assert (H4 : (List.length (get_modes row) <= 4)%nat).
  { pose proof (tvm_modes_length (record row)).
    pose proof (slot1_modes_length (record row)).
    pose proof (slot2_modes_length (record row)).
    rewrite get_modes_blocks, !length_app. lia. }
  destruct (get_modes row) as [| m0 rest] eqn:Hm.
  - unfold create_regimes. rewrite Hm. simpl. split; [lia |].
    intros Hne. contradiction.
  - rewrite (create_regimes_eod_part row m0 rest Hm), length_app.
    pose proof (loop_output_length (base_data (record row))
                  (days_from_row row) (m0 :: rest) (time_hm 0 0)) as Hlo.
    pose proof (loop_output_upper (base_data (record row))
                  (days_from_row row) (m0 :: rest) (time_hm 0 0)) as Hup.
    pose proof (eod_part_length (base_data (record row))
                  (days_from_row row) (last (m0 :: rest) m0)) as He.
    simpl List.length in *. lia.
Qed.

Lemma loop_output_modes (base : regime) (days : list string)
    (modes : list mode) (mode_start : time) (m : mode) :
  In m modes ->
  In (mode_data base days m) (loop_output base days mode_start modes).
Proof.
  revert mode_start. induction modes as [| m' rest IH]; intros c Hin.
  - contradiction.
  - cbn [loop_output]. apply in_or_app. right. destruct Hin as [-> | Hin].
    + now left.
    + right. now apply IH.
Qed.

Lemma loop_output_kinds (base : regime) (days : list string) :
  is_filler base ->
  forall (modes : list mode) (mode_start : time),
    Forall (fun x => (exists m, In m modes /\ x = mode_data base days m)
                     \/ is_filler x)
      (loop_output base days mode_start modes).
Proof.
  intros Hb modes. induction modes as [| m rest IH]; intros c.
  - constructor.
  - cbn [loop_output]. apply Forall_app. split.
    + destruct (time_gtb (m_begin_tijd m) c); constructor; [| constructor].
      right. exact Hb.
    + constructor.
      * left. exists m. split; [now left | reflexivity].
      * eapply Forall_impl; [| apply IH].
        intros x [(m' & Hin & E) | Hf]; [left | now right].
        exists m'. split; [now right | exact E].
Qed.

Lemma base_data_is_filler (r : ShapeRecord) : is_filler (base_data r).
Proof. repeat split. Qed.

(** X6. For a record with modes, every mode is among the emitted regimes
    with its own soort, sign, plate, dates and times, and every other
    emitted regime is a FISCAAL filler without sign, plate or dates. *)
Theorem create_regimes_modes_and_fillers (row : ShapeRow) :
  get_modes row <> [] ->
  (forall m, In m (get_modes row) ->
     In (mode_data (base_data (record row)) (days_from_row row) m)
        (create_regimes row)) /\
  Forall (fun x =>
            (exists m, In m (get_modes row) /\
               x = mode_data (base_data (record row)) (days_from_row row) m)
            \/ is_filler x)
    (create_regimes row).
Proof.
  intros Hne. destruct (get_modes row) as [| m0 rest] eqn:Hm;
    [contradiction |].
  rewrite (create_regimes_eod_part row m0 rest Hm). split.
  - intros m Hin. apply in_or_app. left. now apply loop_output_modes.
  - apply Forall_app. split.
    + apply loop_output_kinds, base_data_is_filler.
    + unfold eod_part. destruct (time_ltb _ _); constructor;
        [right; repeat split | constructor].
Qed.

Lemma or_str_nonempty (v : option string) (d : string) :
  d <> "" -> or_str v d <> "".
Proof.
  intros Hd. destruct v as [s |]; simpl; [| exact Hd].
  destruct (String.eqb s "") eqn:E; [exact Hd |].
  now apply String.eqb_neq.
Qed.

Lemma get_modes_soort (row : ShapeRow) :
  Forall (fun m => m_soort m <> "") (get_modes row).
Proof.
  assert (Hs : forall r b e, m_soort (slot_mode r b e) <> "").
  { intros r b e. cbn [m_soort slot_mode]. apply or_str_nonempty.
    discriminate. }
  rewrite get_modes_blocks. apply Forall_app. split; [| apply Forall_app; split].
  - unfold tvm_modes. destruct (existsb _ _); constructor; [| constructor].
    cbn [m_soort tvm_mode]. apply or_str_nonempty. discriminate.
  - unfold slot1_modes. destruct (existsb _ _); [| constructor].
    destruct (time_ltb _ _); repeat (constructor; [apply Hs |]); constructor.
  - unfold slot2_modes. destruct (existsb _ _); constructor;
      [apply Hs | constructor].
Qed.

Lemma loop_output_soort (base : regime) (days : list string) :
  soort base <> "" ->
  forall (modes : list mode) (mode_start : time),
    Forall (fun m => m_soort m <> "") modes ->
    Forall (fun x => soort x <> "")
      (loop_output base days mode_start modes).
Proof.
  intros Hb modes. induction modes as [| m rest IH]; intros c Hm.
  - constructor.
  - inversion Hm as [| ? ? Hs Hrest]; subst.
    cbn [loop_output]. apply Forall_app. split.
    + destruct (time_gtb (m_begin_tijd m) c); repeat constructor. exact Hb.
    + constructor; [exact Hs | now apply IH].
Qed.

Lemma create_regimes_soort (row : ShapeRow) :
  Forall (fun x => soort x <> "") (create_regimes row).
Proof.
  destruct (get_modes row) as [| m0 rest] eqn:Hm.
  - unfold create_regimes. rewrite Hm. repeat constructor.
    cbn [full_override soort]. apply or_str_nonempty. discriminate.
  - rewrite (create_regimes_eod_part row m0 rest Hm). apply Forall_app. split.
    + apply loop_output_soort; [discriminate |].
      rewrite <- Hm. apply get_modes_soort.
    + unfold eod_part. destruct (time_ltb _ _); repeat constructor.
      discriminate.
Qed.

(** X7. The soort of every emitted regime and the soort written for the
    spot are never the empty string. *)
Theorem soort_never_empty (row : ShapeRow) :
  Forall (fun x => soort x <> "") (create_regimes row) /\
  spot_soort row <> "".
Proof.
  split; [apply create_regimes_soort |].
  unfold spot_soort, create_parkeervaak. cbn [pv_soort].
  apply or_str_nonempty.
  pose proof (create_regimes_soort row) as H.
  destruct (create_regimes row) as [| x [| y l]]; cbn [regimes_soort];
    try discriminate.
  now inversion H.
Qed.

(** ** The cursor after a mode that ends at 23:59 *)

Lemma last_default (A : Type) (l : list A) (d d' : A) :
  l <> [] -> last l d = last l d'.
Proof.
  induction l as [| x l IH]; intros Hne; [contradiction |].
  destruct l as [| y l]; [reflexivity |].
  cbn [last]. apply IH. discriminate.
Qed.

Lemma cursor_after_cons (c : time) (m : mode) (l : list mode) :
  cursor_after c (m :: l) = cursor_after (add_a_minute (m_eind_tijd m)) l.
Proof.
  destruct l as [| m' l]; [reflexivity |].
  unfold cursor_after.
  change (last (m :: m' :: l) m) with (last (m' :: l) m).
  f_equal. f_equal. apply last_default. discriminate.
Qed.

Lemma loop_output_app (base : regime) (days : list string)
    (l1 l2 : list mode) (c : time) :
  loop_output base days c (l1 ++ l2)
  = loop_output base days c l1
    ++ loop_output base days (cursor_after c l1) l2.
Proof.
  revert c. induction l1 as [| m l1 IH]; intros c; [reflexivity |].
  rewrite cursor_after_cons. cbn [app loop_output]. rewrite IH.
  now rewrite <- app_assoc.
Qed.

(** X8. After a mode that ends at 23:59 the cursor of [create_regimes] is
    back at 00:00: when the next mode of the list begins after 00:00, a
    filler from 00:00 to the minute before that mode is emitted again. *)
Theorem cursor_restarts_after_2359 (row : ShapeRow) (pre post : list mode)
    (m1 m2 : mode) :
  get_modes row = pre ++ m1 :: m2 :: post ->
  m_eind_tijd m1 = time_hm 23 59 ->
  time_gtb (m_begin_tijd m2) (time_hm 0 0) = true ->
  exists x,
    In x (create_regimes row) /\ is_filler x /\
    begin_tijd x = time_hm 0 0 /\
    eind_tijd x = remove_a_minute (m_begin_tijd m2).
Proof.
  intros Hm He Hg.
  exists (sod_mode (base_data (record row)) (days_from_row row)
            (time_hm 0 0) m2).
  split; [| repeat split].
  destruct (get_modes row) as [| m0 rest] eqn:E.
  { destruct pre; discriminate. }
  rewrite (create_regimes_eod_part row m0 rest E), Hm.
  apply in_or_app. left.
  change (pre ++ m1 :: m2 :: post) with (pre ++ [m1] ++ m2 :: post).
  rewrite app_assoc, loop_output_app. apply in_or_app. right.
  assert (Hc : cursor_after (time_hm 0 0) (pre ++ [m1]) = time_hm 0 0).
  { unfold cursor_after. destruct (pre ++ [m1]) as [| m l] eqn:El.
    - destruct pre; discriminate.
    - rewrite <- El, last_last, He. reflexivity. }
  rewrite Hc. cbn [loop_output]. rewrite Hg. now left.
Qed.

(** ** Every minute of the day has one regime *)

Lemma tiles_begin_later (out : list regime) :
  forall c k, tiles c out -> k < c -> filter (covers_minute k) out = [].
Proof.
  induction out as [| x rest IH]; intros c k Ht Hk; [reflexivity |].
  destruct Ht as (_ & _ & Hb & Hle & Hrest).
  cbn [filter]. unfold covers_minute at 1.
  replace (minute_of_day (begin_tijd x) <=? k) with false
    by (symmetry; apply Z.leb_gt; lia).
  cbn [andb]. apply (IH _ _ Hrest). lia.
Qed.

Lemma tiles_cover (out : list regime) :
  forall c k, tiles c out -> c <= k < 1440 ->
  exists x, filter (covers_minute k) out = [x].
Proof.
  induction out as [| x rest IH]; intros c k Ht Hk.
  - cbn [tiles] in Ht. lia.
  - destruct Ht as (_ & _ & Hb & Hle & Hrest). cbn [filter].
    unfold covers_minute at 1.
    replace (minute_of_day (begin_tijd x) <=? k) with true
      by (symmetry; apply Z.leb_le; lia).
    cbn [andb].
    destruct (k <=? minute_of_day (eind_tijd x)) eqn:E.
    + apply Z.leb_le in E. exists x.
      rewrite (tiles_begin_later rest _ k Hrest); [reflexivity | lia].
    + apply Z.leb_gt in E. apply (IH _ _ Hrest). lia.
Qed.

Lemma loop_output_tiles (base : regime) (days : list string) :
  eind_tijd base = time_hm 23 59 ->
  forall (modes : list mode) (c : time) (d : mode),
    modes <> [] ->
    Forall mode_ok modes ->
    modes_separated modes ->
    whole_minutes c ->
    (forall m rest, modes = m :: rest -> time_gtb c (m_begin_tijd m) = false) ->
    tiles (minute_of_day c)
      (loop_output base days c modes ++ eod_part base days (last modes d)).
Proof.
  intros Hbase modes.
  destruct (whole_minutes_hm 23 59) as [W2359 K2359]; try lia.
  induction modes as [| m rest IH]; intros c d Hne Hok Hsep Hc Hle;
    [contradiction |].
  inversion Hok as [| ? ? (Hb & He & Hbe) Hok' ]; subst.
  specialize (Hle m rest eq_refl).
  destruct (whole_minutes_us _ Hb) as [_ Rb].
  destruct (whole_minutes_us _ He) as [_ Re].
  destruct (whole_minutes_us _ Hc) as [_ Rc].
  assert (Lbe : minute_of_day (m_begin_tijd m) <= minute_of_day (m_eind_tijd m)).
  { destruct (Z_lt_le_dec (minute_of_day (m_eind_tijd m))
                (minute_of_day (m_begin_tijd m))) as [L | L]; [| exact L].
    apply (whole_minutes_gtb _ _ Hb He) in L. congruence. }
  assert (Lcb : minute_of_day c <= minute_of_day (m_begin_tijd m)).
  { destruct (Z_lt_le_dec (minute_of_day (m_begin_tijd m))
                (minute_of_day c)) as [L | L]; [| exact L].
    apply (whole_minutes_gtb _ _ Hc Hb) in L. congruence. }
  assert (Htail : tiles (minute_of_day (m_begin_tijd m))
            (mode_data base days m
             :: (loop_output base days (add_a_minute (m_eind_tijd m)) rest
                 ++ eod_part base days (last (m :: rest) d)))).
  { cbn [tiles mode_data set_dagen update_mode begin_tijd eind_tijd].
    split; [exact Hb | split; [exact He | split; [reflexivity |]]].
    split; [exact Lbe |].
    destruct rest as [| m' rest'].
    - cbn [loop_output app last]. unfold eod_part.
      destruct (time_ltb (m_eind_tijd m) (time_hm 23 59)) eqn:Hlt.
      + apply (whole_minutes_ltb _ _ He W2359) in Hlt. rewrite K2359 in Hlt.
        destruct (whole_minutes_add _ He) as [Wa Ka]; [lia |].
        cbn [tiles eod_mode set_begin_tijd set_dagen begin_tijd eind_tijd].
        rewrite Hbase, K2359.
        split; [exact Wa | split; [exact W2359 | split; [exact Ka |]]].
        split; lia.
      + cbn [tiles].
        destruct (Z_lt_le_dec (minute_of_day (m_eind_tijd m))
                    (minute_of_day (time_hm 23 59))) as [L | L].
        * apply (whole_minutes_ltb _ _ He W2359) in L. congruence.
        * rewrite K2359 in L. lia.
    - destruct Hsep as [Hlt Hsep'].
      inversion Hok' as [| ? ? (Hb' & He' & Hbe') _ ]; subst.
      apply (whole_minutes_ltb _ _ He Hb') in Hlt.
      destruct (whole_minutes_us _ Hb') as [_ Rb'].
      destruct (whole_minutes_add _ He) as [Wa Ka]; [lia |].
      change (last (m :: m' :: rest') d) with (last (m' :: rest') d).
      rewrite <- Ka. apply IH; try assumption; [discriminate |].
      intros m1 rest1 E. injection E as <- <-.
      destruct (time_gtb (add_a_minute (m_eind_tijd m)) (m_begin_tijd m'))
        eqn:G; [| reflexivity].
      apply (whole_minutes_gtb _ _ Wa Hb') in G. lia. }
  cbn [loop_output]. rewrite <- app_assoc. cbn [app].
  destruct (time_gtb (m_begin_tijd m) c) eqn:G; cbn [app].
  - apply (whole_minutes_gtb _ _ Hb Hc) in G.
    destruct (whole_minutes_remove _ Hb) as [Wr Kr]; [lia |].
    cbn [tiles].
    cbn [sod_mode set_eind_tijd set_begin_tijd set_dagen begin_tijd eind_tijd].
    split; [exact Hc | split; [exact Wr | split; [reflexivity |]]].
    rewrite Kr. split; [lia |].
    replace (minute_of_day (m_begin_tijd m) - 1 + 1)
      with (minute_of_day (m_begin_tijd m)) by lia.
    exact Htail.
  - assert (E : m_begin_tijd m = c).
    { apply (whole_minutes_eq _ _ Hb Hc).
      destruct (Z_lt_le_dec (minute_of_day c) (minute_of_day (m_begin_tijd m)))
        as [L | L]; [| lia].
      apply (whole_minutes_gtb _ _ Hb Hc) in L. congruence. }
    rewrite <- E. exact Htail.
Qed.

Lemma create_regimes_tiles (row : ShapeRow) :
  get_modes row <> [] ->
  Forall mode_ok (get_modes row) ->
  modes_separated (get_modes row) ->
  tiles 0 (create_regimes row).
Proof.
  intros Hne Hok Hsep.
  destruct (get_modes row) as [| m0 rest] eqn:Hm; [contradiction |].
  rewrite (create_regimes_eod_part row m0 rest Hm).
  destruct (whole_minutes_hm 0 0) as [W K]; try lia.
  change 0 with (minute_of_day (time_hm 0 0)).
  apply (loop_output_tiles (base_data (record row)) (days_from_row row)
           eq_refl (m0 :: rest) (time_hm 0 0) m0 Hne Hok Hsep W).
  intros m rest' E. injection E as <- <-.
  inversion Hok as [| ? ? (Hb & _) _ ]; subst.
  destruct (time_gtb (time_hm 0 0) (m_begin_tijd m0)) eqn:G; [| reflexivity].
  apply (whole_minutes_gtb _ _ W Hb) in G.
  destruct (whole_minutes_us _ Hb) as [_ R]. rewrite K in G. lia.
Qed.

(** X9. For a record with modes in whole minutes, none of which begins
    after it ends and each of which ends before the next begins, every
    minute of the day lies in exactly one emitted regime. *)
Theorem create_regimes_covers_each_minute (row : ShapeRow) (k : Z) :
  get_modes row <> [] ->
  Forall mode_ok (get_modes row) ->
  modes_separated (get_modes row) ->
  0 <= k < 1440 ->
  exists x, filter (covers_minute k) (create_regimes row) = [x].
Proof.
  intros Hne Hok Hsep Hk.
  apply (tiles_cover _ 0 k); [| exact Hk].
  now apply create_regimes_tiles.
Qed.

(** ** Slot 1 gives well-formed modes *)

Lemma slot1_modes_ok (r : ShapeRecord) :
  whole_minutes (parse_time (BEGINTIJD1 r) (time_hm 0 0)) ->
  whole_minutes (parse_time (EINDTIJD1 r) (time_hm 23 59)) ->
  Forall mode_ok (slot1_modes r).
Proof.
  intros Wb We.
  destruct (whole_minutes_hm 0 0) as [W0 K0]; try lia.
  destruct (whole_minutes_hm 23 59) as [W9 K9]; try lia.
  destruct (whole_minutes_us _ Wb) as [_ Rb].
  destruct (whole_minutes_us _ We) as [_ Re].
  unfold slot1_modes. destruct (existsb _ _); [| constructor].
  destruct (time_ltb _ _) eqn:Hlt.
  - apply (whole_minutes_ltb _ _ Wb We) in Hlt.
    constructor; [| constructor]. unfold mode_ok. cbn [slot_mode m_begin_tijd m_eind_tijd].
    split; [exact Wb | split; [exact We |]].
    destruct (time_gtb _ _) eqn:G; [| reflexivity].
    apply (whole_minutes_gtb _ _ Wb We) in G. lia.
  - constructor; [| constructor; [| constructor]]; unfold mode_ok;
      cbn [slot_mode m_begin_tijd m_eind_tijd].
    + split; [exact W0 | split; [exact We |]].
      destruct (time_gtb _ _) eqn:G; [| reflexivity].
      apply (whole_minutes_gtb _ _ W0 We) in G. lia.
    + split; [exact Wb | split; [exact W9 |]].
      destruct (time_gtb _ _) eqn:G; [| reflexivity].
      apply (whole_minutes_gtb _ _ Wb W9) in G. lia.
Qed.

Lemma slot1_modes_sep (r : ShapeRecord) :
  whole_minutes (parse_time (BEGINTIJD1 r) (time_hm 0 0)) ->
  whole_minutes (parse_time (EINDTIJD1 r) (time_hm 23 59)) ->
  parse_time (BEGINTIJD1 r) (time_hm 0 0)
  <> parse_time (EINDTIJD1 r) (time_hm 23 59) ->
  modes_separated (slot1_modes r).
Proof.
  intros Wb We Hne.
  unfold slot1_modes. destruct (existsb _ _); [| exact I].
  destruct (time_ltb _ _) eqn:Hlt; [exact I |].
  cbn [modes_separated slot_mode m_begin_tijd m_eind_tijd].
  split; [| exact I].
  destruct (time_ltb (parse_time (EINDTIJD1 r) (time_hm 23 59))
              (parse_time (BEGINTIJD1 r) (time_hm 0 0))) eqn:G;
    [reflexivity |].
  exfalso. apply Hne. apply (whole_minutes_eq _ _ Wb We).
  destruct (Z.lt_total (minute_of_day (parse_time (BEGINTIJD1 r) (time_hm 0 0)))
              (minute_of_day (parse_time (EINDTIJD1 r) (time_hm 23 59))))
    as [L | [L | L]]; [| exact L |].
  - apply (whole_minutes_ltb _ _ Wb We) in L. congruence.
  - apply (whole_minutes_ltb _ _ We Wb) in L. congruence.
Qed.

(** X10. For a record whose slot-1 begin and end, as [parse_time] reads
    them, are times in whole minutes: no slot-1 mode begins after it ends,
    whether the slot was split or not; and unless the two times are the
    same, the first fragment of a split ends before the second begins. *)
Theorem slot1_modes_well_formed (r : ShapeRecord) :
  whole_minutes (parse_time (BEGINTIJD1 r) (time_hm 0 0)) ->
  whole_minutes (parse_time (EINDTIJD1 r) (time_hm 23 59)) ->
  Forall mode_ok (slot1_modes r) /\
  (parse_time (BEGINTIJD1 r) (time_hm 0 0)
   <> parse_time (EINDTIJD1 r) (time_hm 23 59) ->
   modes_separated (slot1_modes r)).
Proof.
  intros Wb We.
  split; [now apply slot1_modes_ok | now apply slot1_modes_sep].
Qed.

(** X11. For a record that has slot 1 only (no temporary measure, no
    slot 2), whose slot-1 begin and end, as [parse_time] reads them, are
    different times in whole minutes: every minute of the day lies in
    exactly one emitted regime, overnight slots included. *)
Theorem slot1_only_covers_each_minute (row : ShapeRow) (k : Z) :
  let r := record row in
  whole_minutes (parse_time (BEGINTIJD1 r) (time_hm 0 0)) ->
  whole_minutes (parse_time (EINDTIJD1 r) (time_hm 23 59)) ->
  existsb str_truthy
    [TVM_BEGINT r; TVM_EINDT r; TVM_BEGIND r; TVM_EINDD r; TVM_OPMERK r]
  = false ->
  existsb str_truthy [BEGINTIJD1 r; EINDTIJD1 r] = true ->
  existsb str_truthy [BEGINTIJD2 r; EINDTIJD2 r] = false ->
  parse_time (BEGINTIJD1 r) (time_hm 0 0)
  <> parse_time (EINDTIJD1 r) (time_hm 23 59) ->
  0 <= k < 1440 ->
  exists x, filter (covers_minute k) (create_regimes row) = [x].
Proof.
  intros r Wb We Htvm H1 H2 Hne Hk.
  assert (Hm : get_modes row = slot1_modes r).
  { rewrite get_modes_blocks. fold r. unfold tvm_modes, slot2_modes.
    rewrite Htvm, H2. cbn [app]. apply app_nil_r. }
  apply (tiles_cover _ 0 k); [| exact Hk].
  apply create_regimes_tiles; rewrite Hm.
  - unfold slot1_modes. rewrite H1. destruct (time_ltb _ _); discriminate.
  - now apply slot1_modes_ok.
  - now apply slot1_modes_sep.
Qed.

(** ** What import_data writes *)

Lemma create_regimes_nonempty (row : ShapeRow) : create_regimes row <> [].
Proof.
  destruct (get_modes row) as [| m0 rest] eqn:Hm.
  - unfold create_regimes. rewrite Hm. discriminate.
  - rewrite (create_regimes_eod_part row m0 rest Hm). cbn [loop_output].
    destruct (time_gtb _ _); discriminate.
Qed.

Lemma import_rows_counts (rows : list ShapeRow) :
  forall st st',
    import_rows st rows = Some st' ->
    exists a b : nat,
      List.length (parkeervakken_sql st')
      = (List.length (parkeervakken_sql st) + a)%nat /\
      List.length (regimes_sql st')
      = (List.length (regimes_sql st) + b)%nat /\
      (a <= b)%nat /\
      (List.length (duplicates st') + a
       = List.length (duplicates st) + List.length rows)%nat.
Proof.
  induction rows as [| row rows IH]; intros st st' H; simpl in H.
  - injection H as <-. exists 0%nat, 0%nat. simpl. lia.
  - destruct (import_row st row) as [st1 |] eqn:E1; [| discriminate].
    destruct (IH st1 st' H) as (a & b & Hp & Hr & Hab & Hd).
    destruct (import_row_cases _ _ _ E1) as (n & Hn & [[_ E] | [_ E]]);
      rewrite E in Hp, Hr, Hd;
      cbn [parkeervakken_sql regimes_sql duplicates] in Hp, Hr, Hd.
    + exists a, b. rewrite length_app in Hd. simpl in Hd |- *. lia.
    + pose proof (create_regimes_nonempty row) as Hne.
      rewrite length_app in Hp, Hr. rewrite length_map in Hr.
      exists (S a), (List.length (create_regimes row) + b)%nat.
      destruct (create_regimes row) as [| x l]; [contradiction |].
      simpl in Hp, Hr |- *. lia.
Qed.

(** X12. When [import_data] returns, every row of the file was either
    written as a spot or reported as a duplicate, and every written spot
    has at least one regime. *)
Theorem import_data_accounts_for_rows (rows : list ShapeRow) (ids0 : list Z)
    (st : import_state) :
  import_data rows ids0 = Some st ->
  (List.length (parkeervakken_sql st) + List.length (duplicates st)
   = List.length rows)%nat /\
  (List.length (parkeervakken_sql st) <= List.length (regimes_sql st))%nat.
Proof.
  intros H.
  destruct (import_rows_counts rows _ _ H) as (a & b & Hp & Hr & Hab & Hd).
  cbn [parkeervakken_sql regimes_sql duplicates List.length] in Hp, Hr, Hd.
  lia.
Qed.

Lemma import_rows_ids (rows : list ShapeRow) :
  forall st st',
    NoDup (ids st) ->
    import_rows st rows = Some st' ->
    exists new,
      ids st' = ids st ++ new /\ NoDup (ids st') /\
      map (fun pv => py_int (pv_parkeer_id pv)) (parkeervakken_sql st')
      = map (fun pv => py_int (pv_parkeer_id pv)) (parkeervakken_sql st)
        ++ map Some new.
Proof.
  induction rows as [| row rows IH]; intros st st' Hnd H; simpl in H.
  - injection H as <-. exists []. rewrite !app_nil_r. auto.
  - destruct (import_row st row) as [st1 |] eqn:E1; [| discriminate].
    destruct (import_row_cases _ _ _ E1) as (n & Hn & [[_ E] | [Hnin E]]).
    + assert (Hnd1 : NoDup (ids st1)) by (rewrite E; exact Hnd).
      destruct (IH st1 st' Hnd1 H) as (new & Hi & Hn' & Hm).
      rewrite E in Hi, Hm. cbn [ids parkeervakken_sql] in Hi, Hm.
      now exists new.
    + assert (Hnd1 : NoDup (ids st1)).
      { rewrite E. cbn [ids]. apply NoDup_app; [exact Hnd | | ].
        - constructor; [intros [] | constructor].
        - intros x Hx [<- | []]. contradiction. }
      destruct (IH st1 st' Hnd1 H) as (new & Hi & Hn' & Hm).
      rewrite E in Hi, Hm. cbn [ids parkeervakken_sql] in Hi, Hm.
      exists (n :: new). split; [| split; [exact Hn' |]].
      * rewrite Hi. now rewrite <- app_assoc.
      * rewrite Hm, map_app. cbn [map create_parkeervaak pv_parkeer_id].
        rewrite Hn. now rewrite <- app_assoc.
Qed.

(** X13. When [ids] holds no identifier twice at the start, it holds none
    twice after [import_data], and the spots written are, in order, the
    identifiers that were appended to it: no two written spots share an
    identifier, and none has an identifier that was in [ids] before. *)
Theorem import_data_ids_distinct (rows : list ShapeRow) (ids0 : list Z)
    (st : import_state) :
  NoDup ids0 ->
  import_data rows ids0 = Some st ->
  exists new,
    ids st = ids0 ++ new /\ NoDup (ids0 ++ new) /\
    map (fun pv => py_int (pv_parkeer_id pv)) (parkeervakken_sql st)
    = map Some new.
Proof.
  intros Hnd H.
  destruct (import_rows_ids rows (mkImport ids0 [] [] []) st Hnd H)
    as (new & Hi & Hn & Hm).
  cbn [ids parkeervakken_sql map app] in Hi, Hm.
  exists new. split; [exact Hi | split; [| exact Hm]].
  now rewrite <- Hi.
Qed.

Lemma run_files_ids (files : list (list ShapeRow)) :
  forall ids0 sts,
    NoDup ids0 ->
    run_files ids0 files = Some sts ->
    exists new,
      NoDup (ids0 ++ new) /\
      map (fun pv => py_int (pv_parkeer_id pv))
        (List.concat (map parkeervakken_sql sts))
      = map Some new.
Proof.
  induction files as [| rows files IH]; intros ids0 sts Hnd H; simpl in H.
  - injection H as <-. exists []. rewrite app_nil_r. auto.
  - destruct (import_data rows ids0) as [st |] eqn:E; [| discriminate].
    destruct (run_files (ids st) files) as [sts' |] eqn:E'; [| discriminate].
    injection H as <-.
    destruct (import_rows_ids rows (mkImport ids0 [] [] []) st Hnd E)
      as (new & Hi & Hn & Hm).
    cbn [ids parkeervakken_sql map app] in Hi, Hm.
    destruct (IH (ids st) sts' Hn E') as (new' & Hn' & Hm').
    exists (new ++ new'). split.
    + rewrite app_assoc, <- Hi. exact Hn'.
    + cbn [map List.concat]. rewrite !map_app, Hm, Hm'. reflexivity.
Qed.

(** X15. Over all the files of one run of [run_imports], no two written
    spots share an identifier. *)
Theorem run_imports_ids_distinct (files : list (list ShapeRow))
    (sts : list import_state) :
  run_imports files = Some sts ->
  exists written,
    NoDup written /\
    map (fun pv => py_int (pv_parkeer_id pv))
      (List.concat (map parkeervakken_sql sts))
    = map Some written.
Proof.
  intros H.
  destruct (run_files_ids files [] sts (NoDup_nil Z) H) as (new & Hn & Hm).
  now exists new.
Qed.

(** ** Exceptions that leave the functions *)

Lemma parse_time_run_returns (value : option string) (default t : time) :
  parse_time_run value default = inr t -> t = parse_time value default.
Proof.
  unfold parse_time_run, parse_time. destruct value as [v |]; [| congruence].
  destruct (dateutil_uncaught (time_text v)); [discriminate |].
  destruct (dateutil_parse (time_text v)); congruence.
Qed.

Lemma parse_time_run_raises (value : option string) (default : time)
    (e : exception) :
  parse_time_run value default = inl e ->
  exists v, value = Some v /\ dateutil_uncaught (time_text v) = Some e.
Proof.
  unfold parse_time_run. destruct value as [v |]; [| discriminate].
  destruct (dateutil_uncaught (time_text v)) as [e' |] eqn:E.
  - intros H. injection H as <-. now exists v.
  - destruct (dateutil_parse (time_text v)); discriminate.
Qed.

Lemma parse_time_run_quiet (value : option string) (default : time) :
  (forall v, value = Some v -> dateutil_uncaught (time_text v) = None) ->
  parse_time_run value default = inr (parse_time value default).
Proof.
  intros H. unfold parse_time_run, parse_time.
  destruct value as [v |]; [| reflexivity].
  rewrite (H v eq_refl). now destruct (dateutil_parse (time_text v)).
Qed.

(** What [parse_time] does with a string value, case by case: a time that
    the parser reads is returned, a ParserError gives the default, and any
    other exception of the parser leaves [parse_time]. *)
Lemma parse_time_run_cases (value : string) (default : time) :
  (forall e, dateutil_uncaught (time_text value) = Some e ->
     parse_time_run (Some value) default = inl e) /\
  (dateutil_uncaught (time_text value) = None ->
   dateutil_parse (time_text value) = None ->
   parse_time_run (Some value) default = inr default) /\
  (forall t, dateutil_uncaught (time_text value) = None ->
     dateutil_parse (time_text value) = Some t ->
     parse_time_run (Some value) default = inr t).
Proof.
  unfold parse_time_run. split; [| split].
  - intros e H. now rewrite H.
  - intros H1 H2. now rewrite H1, H2.
  - intros t H1 H2. now rewrite H1, H2.
Qed.

Section TwoParses.

Variables (v1 v2 : option string) (d1 d2 : time).
Variable f : time -> time -> list mode.

Let both : exception + list mode :=
  bind (parse_time_run v1 d1) (fun b =>
  bind (parse_time_run v2 d2) (fun e => inr (f b e))).

Lemma two_parses_returns (l : list mode) :
  both = inr l -> l = f (parse_time v1 d1) (parse_time v2 d2).
Proof.
  unfold both, bind.
  destruct (parse_time_run v1 d1) as [e1 | b] eqn:E1; [discriminate |].
  destruct (parse_time_run v2 d2) as [e2 | e] eqn:E2; [discriminate |].
  apply parse_time_run_returns in E1, E2. congruence.
Qed.

Lemma two_parses_raises (e : exception) :
  both = inl e ->
  exists v, (v1 = Some v \/ v2 = Some v)
            /\ dateutil_uncaught (time_text v) = Some e.
Proof.
  unfold both, bind.
  destruct (parse_time_run v1 d1) as [e1 | b] eqn:E1.
  - intros H. injection H as <-.
    apply parse_time_run_raises in E1. destruct E1 as (v & Hv & Hu).
    exists v. auto.
  - destruct (parse_time_run v2 d2) as [e2 | e'] eqn:E2; [| discriminate].
    intros H. injection H as <-.
    apply parse_time_run_raises in E2. destruct E2 as (v & Hv & Hu).
    exists v. auto.
Qed.

Lemma two_parses_quiet :
  (forall v, v1 = Some v \/ v2 = Some v ->
     dateutil_uncaught (time_text v) = None) ->
  both = inr (f (parse_time v1 d1) (parse_time v2 d2)).
Proof.
  intros H. unfold both.
  rewrite (parse_time_run_quiet v1 d1) by (intros v Hv; apply H; now left).
  cbn [bind].
  rewrite (parse_time_run_quiet v2 d2) by (intros v Hv; apply H; now right).
  reflexivity.
Qed.

End TwoParses.

Lemma get_modes_run_returns (row : ShapeRow) (l : list mode) :
  get_modes_run row = inr l -> l = get_modes row.
Proof.
  unfold get_modes_run, get_modes, bind.
  destruct (tvm_modes_run (record row)) as [e | tvm] eqn:Et; [discriminate |].
  destruct (slot1_modes_run (record row)) as [e | s1] eqn:E1; [discriminate |].
  destruct (slot2_modes_run (record row)) as [e | s2] eqn:E2; [discriminate |].
  intros H. injection H as <-.
  assert (Ht : tvm = tvm_modes (record row)).
  { unfold tvm_modes_run in Et. unfold tvm_modes.
    destruct (existsb _ _); [| congruence].
    now apply two_parses_returns in Et. }
  assert (H1 : s1 = slot1_modes (record row)).
  { unfold slot1_modes_run in E1. unfold slot1_modes.
    destruct (existsb _ _); [| congruence].
    now apply two_parses_returns in E1. }
  assert (H2 : s2 = slot2_modes (record row)).
  { unfold slot2_modes_run in E2. unfold slot2_modes.
    destruct (existsb _ _); [| congruence].
    now apply two_parses_returns in E2. }
  subst. cbn [app]. now rewrite app_assoc.
Qed.

Lemma get_modes_run_raises (row : ShapeRow) (e : exception) :
  get_modes_run row = inl e ->
  exists v, In (Some v) (time_attributes (record row))
            /\ dateutil_uncaught (time_text v) = Some e.
Proof.
  unfold get_modes_run, bind, time_attributes.
  destruct (tvm_modes_run (record row)) as [e0 | tvm] eqn:Et.
  { intros H. injection H as <-. unfold tvm_modes_run in Et.
    destruct (existsb _ _); [| discriminate].
    apply two_parses_raises in Et. destruct Et as (v & [Hv | Hv] & Hu);
      exists v; (split; [rewrite <- Hv; simpl; auto 10 | exact Hu]). }
  destruct (slot1_modes_run (record row)) as [e0 | s1] eqn:E1.
  { intros H. injection H as <-. unfold slot1_modes_run in E1.
    destruct (existsb _ _); [| discriminate].
    apply two_parses_raises in E1. destruct E1 as (v & [Hv | Hv] & Hu);
      exists v; (split; [rewrite <- Hv; simpl; auto 10 | exact Hu]). }
  destruct (slot2_modes_run (record row)) as [e0 | s2] eqn:E2;
    [| discriminate].
  intros H. injection H as <-. unfold slot2_modes_run in E2.
  destruct (existsb _ _); [| discriminate].
  apply two_parses_raises in E2. destruct E2 as (v & [Hv | Hv] & Hu);
    exists v; (split; [rewrite <- Hv; simpl; auto 10 | exact Hu]).
Qed.

Lemma get_modes_run_quiet (row : ShapeRow) :
  (forall v, In (Some v) (time_attributes (record row)) ->
     dateutil_uncaught (time_text v) = None) ->
  get_modes_run row = inr (get_modes row).
Proof.
  intros H. unfold time_attributes in H.
  assert (Ht : tvm_modes_run (record row) = inr (tvm_modes (record row))).
  { unfold tvm_modes_run, tvm_modes. destruct (existsb _ _); [| reflexivity].
    apply (two_parses_quiet _ _ _ _ (fun b e => [tvm_mode_at (record row) b e])).
    intros v [Hv | Hv]; apply H; rewrite <- Hv; simpl; auto 10. }
  assert (H1 : slot1_modes_run (record row) = inr (slot1_modes (record row))).
  { unfold slot1_modes_run, slot1_modes.
    destruct (existsb _ _); [| reflexivity].
    apply (two_parses_quiet _ _ _ _
             (fun b e => if time_ltb b e
                         then [slot_mode (record row) b e]
                         else [slot_mode (record row) (time_hm 0 0) e;
                               slot_mode (record row) b (time_hm 23 59)])).
    intros v [Hv | Hv]; apply H; rewrite <- Hv; simpl; auto 10. }
  assert (H2 : slot2_modes_run (record row) = inr (slot2_modes (record row))).
  { unfold slot2_modes_run, slot2_modes.
    destruct (existsb _ _); [| reflexivity].
    apply (two_parses_quiet _ _ _ _ (fun b e => [slot_mode (record row) b e])).
    intros v [Hv | Hv]; apply H; rewrite <- Hv; simpl; auto 10. }
  unfold get_modes_run. rewrite Ht, H1, H2. cbn [bind].
  rewrite get_modes_blocks. cbn [app]. reflexivity.
Qed.

Lemma create_regimes_from_modes (row : ShapeRow) :
  create_regimes row = regimes_from_modes row (get_modes row).
Proof.
  unfold create_regimes, regimes_from_modes.
  now destruct (get_modes row).
Qed.

Lemma create_regimes_run_returns (row : ShapeRow) (l : list regime) :
  create_regimes_run row = inr l -> l = create_regimes row.
Proof.
  unfold create_regimes_run, bind.
  destruct (get_modes_run row) as [e | modes] eqn:E; [discriminate |].
  intros H. injection H as <-. apply get_modes_run_returns in E.
  now rewrite create_regimes_from_modes, E.
Qed.

(** X19. [create_regimes] raises only an exception that the date parser
    lets through on one of the six time attributes of the record; when it
    returns, it returns the list [create_regimes] of this file gives; and it
    does return when the parser raises nothing but ParserError on those
    attributes. *)
Theorem create_regimes_run_outcome (row : ShapeRow) :
  (forall e, create_regimes_run row = inl e ->
     exists v, In (Some v) (time_attributes (record row))
               /\ dateutil_uncaught (time_text v) = Some e) /\
  (forall l, create_regimes_run row = inr l -> l = create_regimes row) /\
  ((forall v, In (Some v) (time_attributes (record row)) ->
      dateutil_uncaught (time_text v) = None) ->
   create_regimes_run row = inr (create_regimes row)).
Proof.
  split; [| split].
  - intros e H. apply get_modes_run_raises.
    unfold create_regimes_run, bind in H.
    destruct (get_modes_run row); [congruence | discriminate].
  - apply create_regimes_run_returns.
  - intros H. unfold create_regimes_run.
    rewrite (get_modes_run_quiet row H). cbn [bind].
    now rewrite create_regimes_from_modes.
Qed.

(** ** The row loop with its exceptions *)

Lemma import_row_run_returns (st st' : import_state) (row : ShapeRow) :
  import_row_run st row = inr st' -> import_row st row = Some st'.
Proof.
  unfold import_row_run, import_row.
  destruct (py_int (PARKEER_ID (record row))) as [n |]; [| discriminate].
  destruct (existsb (Z.eqb n) (ids st)); [congruence |].
  unfold bind.
  destruct (create_regimes_run row) as [e | regimes] eqn:E; [discriminate |].
  apply create_regimes_run_returns in E. subst regimes. congruence.
Qed.

Lemma import_rows_run_returns (rows : list ShapeRow) :
  forall st st',
    import_rows_run st rows = inr st' -> import_rows st rows = Some st'.
Proof.
  induction rows as [| row rows IH]; intros st st' H; simpl in H |- *.
  - congruence.
  - unfold bind in H.
    destruct (import_row_run st row) as [e | st1] eqn:E; [discriminate |].
    rewrite (import_row_run_returns _ _ _ E). now apply IH.
Qed.

Lemma import_rows_run_app (st : import_state) (l l' : list ShapeRow) :
  import_rows_run st (l ++ l')
  = bind (import_rows_run st l) (fun st' => import_rows_run st' l').
Proof.
  revert st. induction l as [| row l IH]; intros st; simpl; [reflexivity |].
  unfold bind at 1 3. destruct (import_row_run st row); [reflexivity |].
  apply IH.
Qed.

(** A row whose identifier is already in [ids] is passed over. *)
Lemma import_row_run_duplicate (st : import_state) (row : ShapeRow) (n : Z) :
  py_int (PARKEER_ID (record row)) = Some n ->
  In n (ids st) ->
  import_row_run st row
  = inr (mkImport (ids st) (parkeervakken_sql st) (regimes_sql st)
           (duplicates st ++ [PARKEER_ID (record row)])).
Proof.
  intros Hn Hin. unfold import_row_run. rewrite Hn.
  now rewrite (proj2 (existsb_eqb_In n (ids st)) Hin).
Qed.

Lemma import_rows_ids_in (rows : list ShapeRow) :
  forall st st',
    import_rows st rows = Some st' ->
    incl (ids st) (ids st') /\
    forall row n, In row rows ->
      py_int (PARKEER_ID (record row)) = Some n -> In n (ids st').
Proof.
  induction rows as [| row rows IH]; intros st st' H; simpl in H.
  - injection H as <-. split; [apply incl_refl | intros row n []].
  - destruct (import_row st row) as [st1 |] eqn:E1; [| discriminate].
    destruct (IH st1 st' H) as [Hincl Hrows].
    destruct (import_row_cases _ _ _ E1) as (m & Hm & [[Hin E] | [_ E]]);
      rewrite E in Hincl; cbn [ids] in Hincl.
    + split; [exact Hincl |].
      intros r n [<- | Hr] Hn; [| now apply (Hrows r)].
      apply Hincl. congruence.
    + split.
      * intros x Hx. apply Hincl. apply in_or_app. now left.
      * intros r n [<- | Hr] Hn; [| now apply (Hrows r)].
        apply Hincl. apply in_or_app. right. left. congruence.
Qed.

(** The loop goes through when every identifier reads as an integer and
    the parser lets no exception through on the rows that are not passed
    over as duplicates of what [ids] holds at the start. *)
Lemma import_rows_run_completes (rows : list ShapeRow) :
  forall st,
    (forall row, In row rows -> py_int (PARKEER_ID (record row)) <> None) ->
    (forall row, In row rows ->
       (exists n, py_int (PARKEER_ID (record row)) = Some n /\ In n (ids st))
       \/ (exists modes, get_modes_run row = inr modes)) ->
    exists st', import_rows_run st rows = inr st'.
Proof.
  induction rows as [| row rows IH]; intros st Hint Hq; simpl.
  - now exists st.
  - assert (Hrow := Hint row (or_introl eq_refl)).
    destruct (py_int (PARKEER_ID (record row))) as [n |] eqn:En;
      [| congruence].
    assert (Hint' : forall r, In r rows ->
                      py_int (PARKEER_ID (record r)) <> None)
      by (intros r Hr; apply Hint; now right).
    destruct (existsb (Z.eqb n) (ids st)) eqn:Ex.
    + apply existsb_eqb_In in Ex.
      rewrite (import_row_run_duplicate st row n En Ex). cbn [bind].
      apply IH; [exact Hint' |].
      intros r Hr. cbn [ids]. apply Hq. now right.
    + assert (Hm : exists modes, get_modes_run row = inr modes).
      { destruct (Hq row (or_introl eq_refl)) as [(n' & Hn' & Hin) | Hm];
          [| exact Hm].
        assert (n' = n) by congruence. subst n'.
        apply existsb_eqb_In in Hin. congruence. }
      destruct Hm as [modes Hm].
      unfold import_row_run. rewrite En, Ex.
      unfold create_regimes_run. rewrite Hm. cbn [bind].
      apply IH; [exact Hint' |].
      intros r Hr. cbn [ids].
      destruct (Hq r (or_intror Hr)) as [(n' & Hn' & Hin) | Hmr];
        [left | now right].
      exists n'. split; [exact Hn' |]. apply in_or_app. now left.
Qed.

(** C9. When every identifier of the file reads as an integer and the
    date parser lets no exception through on the rows other than the
    second of two rows with the same identifier, the loop of [import_data]
    ends normally, whatever the time attributes of that second row hold.
    If that identifier is not in [ids] when the file is read and no earlier
    row of the file carries it, then the spot and the regimes written for
    it are those of the first row alone, and the identifier of the second
    row is in the duplicates that are returned. *)
Theorem import_data_run_skips_duplicate (ids0 : list Z) (k : Z)
    (l1 l2 l3 : list ShapeRow) (a b : ShapeRow) :
  let rows := l1 ++ a :: l2 ++ b :: l3 in
  (forall row, In row rows -> py_int (PARKEER_ID (record row)) <> None) ->
  (forall row, In row (l1 ++ a :: l2 ++ l3) ->
     exists modes, get_modes_run row = inr modes) ->
  py_int (PARKEER_ID (record a)) = Some k ->
  py_int (PARKEER_ID (record b)) = Some k ->
  ~ In k ids0 ->
  (forall row, In row l1 -> py_int (PARKEER_ID (record row)) <> Some k) ->
  exists st,
    import_data_run rows ids0 = inr st /\
    spots_with_id k (parkeervakken_sql st)
    = [create_parkeervaak a (regimes_soort (create_regimes a))] /\
    regimes_with_id k (regimes_sql st)
    = map (format_regime a) (create_regimes a) /\
    In (PARKEER_ID (record b)) (duplicates st).
Proof.
  intros rows Hint Hquiet Ha Hb Hk0 Hl1.
  assert (Erows : rows = (l1 ++ a :: l2) ++ b :: l3).
  { unfold rows. now rewrite <- app_assoc. }
  assert (Hin1 : forall r, In r (l1 ++ a :: l2) -> In r rows).
  { intros r Hr. rewrite Erows. apply in_or_app. now left. }
  assert (Hin2 : forall r, In r (b :: l3) -> In r rows).
  { intros r Hr. rewrite Erows. apply in_or_app. now right. }
  set (st0 := mkImport ids0 [] [] []).
  (* the rows up to the second row of the pair *)
  destruct (import_rows_run_completes (l1 ++ a :: l2) st0) as [st2 E2].
  { intros r Hr. apply Hint, Hin1, Hr. }
  { intros r Hr. right. apply Hquiet.
    apply in_app_or in Hr. apply in_or_app.
    destruct Hr as [Hr | [<- | Hr]]; [now left | right; now left |].
    right. right. apply in_or_app. now left. }
  pose proof (import_rows_run_returns _ _ _ E2) as P2.
  destruct (import_rows_ids_in _ _ _ P2) as [_ Hids2].
  assert (Hk2 : In k (ids st2)).
  { apply (Hids2 a k); [| exact Ha]. apply in_or_app. right. now left. }
  (* the second row and what follows it *)
  destruct (import_rows_run_completes (b :: l3) st2) as [st E3].
  { intros r Hr. apply Hint, Hin2, Hr. }
  { intros r [<- | Hr]; [left; now exists k |].
    right. apply Hquiet. apply in_or_app. right. right.
    apply in_or_app. now right. }
  assert (Erun : import_data_run rows ids0 = inr st).
  { unfold import_data_run. fold st0.
    rewrite Erows, import_rows_run_app, E2. exact E3. }
  exists st. split; [exact Erun |].
  pose proof (import_rows_run_returns _ _ _ Erun) as Ppure.
  destruct (import_data_skips_duplicate ids0 k l1 l2 l3 a b
              Hint Ha Hb Hk0 Hl1) as (st' & Est' & Hprops).
  fold rows in Est'. unfold import_data in Est'.
  assert (st' = st) by congruence. subst st'. exact Hprops.
Qed.

Lemma import_rows_run_raised (rows : list ShapeRow) :
  forall st e,
    import_rows_run st rows = inl e ->
    exists row,
      In row rows /\
      ((py_int (PARKEER_ID (record row)) = None /\ e = ValueError)
       \/ get_modes_run row = inl e).
Proof.
  induction rows as [| row rows IH]; intros st e H; simpl in H.
  - discriminate.
  - unfold bind in H.
    destruct (import_row_run st row) as [e1 | st1] eqn:E1.
    + injection H as ->. exists row. split; [now left |].
      unfold import_row_run in E1.
      destruct (py_int (PARKEER_ID (record row))) as [n |].
      * destruct (existsb (Z.eqb n) (ids st)); [discriminate |].
        right. unfold create_regimes_run, bind in E1.
        destruct (get_modes_run row) as [e2 | modes]; [| discriminate].
        congruence.
      * left. split; [reflexivity | congruence].
    + destruct (IH st1 e H) as (r & Hr & Hcase).
      exists r. split; [now right | exact Hcase].
Qed.

Lemma import_rows_run_bad_identifier (rows : list ShapeRow) :
  forall st,
    (exists row, In row rows /\ py_int (PARKEER_ID (record row)) = None) ->
    exists e, import_rows_run st rows = inl e.
Proof.
  induction rows as [| row rows IH]; intros st (r & Hr & Hn).
  - contradiction.
  - simpl. unfold bind.
    destruct (import_row_run st row) as [e1 | st1] eqn:E1;
      [now exists e1 |].
    destruct Hr as [<- | Hr].
    + unfold import_row_run in E1. rewrite Hn in E1. discriminate.
    + apply IH. now exists r.
Qed.

(** X14. The loop of [import_data] is broken off only by the ValueError of
    [int] on the identifier of a row, or by an exception that the date
    parser lets through while the modes of a row are extracted; it is
    broken off whenever the identifier of some row does not read as an
    integer; and a row whose identifier is already in [ids] never breaks
    it off, whatever its time attributes hold: it is appended to the
    duplicates. *)
Theorem import_data_run_raises (rows : list ShapeRow) (ids0 : list Z) :
  (forall e, import_data_run rows ids0 = inl e ->
     exists row,
       In row rows /\
       ((py_int (PARKEER_ID (record row)) = None /\ e = ValueError)
        \/ get_modes_run row = inl e)) /\
  ((exists row, In row rows /\ py_int (PARKEER_ID (record row)) = None) ->
   exists e, import_data_run rows ids0 = inl e) /\
  (forall st row n,
     py_int (PARKEER_ID (record row)) = Some n -> In n (ids st) ->
     import_row_run st row
     = inr (mkImport (ids st) (parkeervakken_sql st) (regimes_sql st)
              (duplicates st ++ [PARKEER_ID (record row)]))).
Proof.
  split; [| split].
  - intros e. apply import_rows_run_raised.
  - apply import_rows_run_bad_identifier.
  - apply import_row_run_duplicate.
Qed.

(** ** The choice of the latest export file *)

Lemma latest_step_skip (latest : option container_entry)
    (x : container_entry) :
  is_candidate x = false -> latest_step latest x = inr latest.
Proof.
  unfold is_candidate, latest_step. intros H.
  destruct (String.eqb (content_type x) "application/zip"); [| reflexivity].
  cbn [andb] in H. now rewrite H.
Qed.

Lemma latest_step_candidate (latest : option container_entry)
    (x : container_entry) :
  is_candidate x = true ->
  latest_step latest x
  = match parse_instant (last_modified x),
          parse_instant
            (last_modified (match latest with None => x | Some l => l end))
    with
    | Some tx, Some tl =>
        if Bool.eqb (stamp_aware (last_modified x))
             (stamp_aware
                (last_modified (match latest with None => x | Some l => l end)))
        then inr (Some (if tx >? tl
                        then x
                        else match latest with None => x | Some l => l end))
        else inl TypeErrorRaised
    | _, _ => inl ParserRaised
    end.
Proof.
  unfold is_candidate, latest_step. intros H.
  apply andb_true_iff in H. destruct H as [H1 H2]. now rewrite H1, H2.
Qed.

Lemma latest_loop_chosen (listing : list container_entry) :
  forall latest x,
    latest_ok latest ->
    latest_loop latest listing = inr (Some x) ->
    exists tx,
      parse_instant (last_modified x) = Some tx /\ is_candidate x = true /\
      ((latest = Some x /\
        forall y ty, In y listing -> is_candidate y = true ->
          parse_instant (last_modified y) = Some ty -> ty <= tx)
       \/
       (exists l1 l2,
          listing = l1 ++ x :: l2 /\
          (forall a ta, latest = Some a ->
             parse_instant (last_modified a) = Some ta -> ta < tx) /\
          (forall y ty, In y l1 -> is_candidate y = true ->
             parse_instant (last_modified y) = Some ty -> ty < tx) /\
          (forall y ty, In y l2 -> is_candidate y = true ->
             parse_instant (last_modified y) = Some ty -> ty <= tx))).
Proof.
  induction listing as [| x0 rest IH]; intros latest x Hok H.
  - simpl in H. injection H as ->. destruct Hok as [Hc Hp].
    destruct (parse_instant (last_modified x)) as [tx |] eqn:E;
      [| contradiction].
    exists tx. split; [reflexivity | split; [exact Hc |]].
    left. split; [reflexivity |]. intros y ty [].
  - cbn [latest_loop] in H.
    destruct (is_candidate x0) eqn:Hc0.
    + rewrite (latest_step_candidate latest x0 Hc0) in H.
      destruct (parse_instant (last_modified x0)) as [t0 |] eqn:E0;
        [| discriminate].
      set (l0 := match latest with None => x0 | Some l => l end) in *.
      destruct (parse_instant (last_modified l0)) as [tl |] eqn:El;
        [| discriminate].
      destruct (Bool.eqb (stamp_aware (last_modified x0))
                  (stamp_aware (last_modified l0))); [| discriminate].
      assert (Hl0 : is_candidate l0 = true).
      { unfold l0. destruct latest as [a |]; [apply Hok | exact Hc0]. }
      assert (Hstep : forall a ta, latest = Some a ->
                parse_instant (last_modified a) = Some ta -> ta = tl).
      { intros a ta -> Ea. unfold l0 in El. congruence. }
      assert (Hnone : latest = None -> tl = t0).
      { intros ->. unfold l0 in El. congruence. }
      destruct (t0 >? tl) eqn:G.
      * apply Z.gtb_lt in G.
        assert (Hok' : latest_ok (Some x0)).
        { split; [exact Hc0 | congruence]. }
        destruct (IH (Some x0) x Hok' H) as (tx & Ex & Hcx & [[Eq Hall] | Hr]).
        -- injection Eq as <-. exists tx. split; [exact Ex | split; [exact Hcx |]].
           right. exists [], rest. split; [reflexivity |].
           assert (tx = t0) by congruence. subst tx.
           split; [| split].
           ++ intros a ta Ha Ea. rewrite (Hstep a ta Ha Ea). exact G.
           ++ intros y ty [].
           ++ exact Hall.
        -- destruct Hr as (l1 & l2 & -> & Hacc & H1 & H2).
           exists tx. split; [exact Ex | split; [exact Hcx |]].
           right. exists (x0 :: l1), l2. split; [reflexivity |].
           pose proof (Hacc x0 t0 eq_refl E0) as Hlt.
           split; [| split].
           ++ intros a ta Ha Ea. rewrite (Hstep a ta Ha Ea). lia.
           ++ intros y ty [<- | Hy] Hcy Ey; [| now apply (H1 y)].
              assert (ty = t0) by congruence. lia.
           ++ exact H2.
      * rewrite Z.gtb_ltb in G. apply Z.ltb_ge in G.
        assert (Hok' : latest_ok (Some l0)).
        { split; [exact Hl0 | congruence]. }
        destruct (IH (Some l0) x Hok' H) as (tx & Ex & Hcx & [[Eq Hall] | Hr]).
        -- injection Eq as El0. exists tx.
           split; [exact Ex | split; [exact Hcx |]].
           assert (tx = tl) by congruence. subst tx.
           destruct latest as [a |].
           ++ left. split; [unfold l0 in El0; now rewrite El0 |].
              intros y ty [<- | Hy] Hcy Ey; [| now apply (Hall y)].
              assert (ty = t0) by congruence. lia.
           ++ right. exists [], rest. unfold l0 in El0. subst x.
              split; [reflexivity |].
              split; [intros a ta Ha; discriminate |].
              split; [intros y ty [] | exact Hall].
        -- destruct Hr as (l1 & l2 & -> & Hacc & H1 & H2).
           exists tx. split; [exact Ex | split; [exact Hcx |]].
           right. exists (x0 :: l1), l2. split; [reflexivity |].
           pose proof (Hacc l0 tl eq_refl El) as Hlt.
           split; [| split].
           ++ intros a ta Ha Ea. rewrite (Hstep a ta Ha Ea). exact Hlt.
           ++ intros y ty [<- | Hy] Hcy Ey; [| now apply (H1 y)].
              assert (ty = t0) by congruence. lia.
           ++ exact H2.
    + rewrite (latest_step_skip latest x0 Hc0) in H.
      destruct (IH latest x Hok H) as (tx & Ex & Hcx & [[Eq Hall] | Hr]).
      * exists tx. split; [exact Ex | split; [exact Hcx |]].
        left. split; [exact Eq |].
        intros y ty [<- | Hy] Hcy Ey; [congruence | now apply (Hall y)].
      * destruct Hr as (l1 & l2 & -> & Hacc & H1 & H2).
        exists tx. split; [exact Ex | split; [exact Hcx |]].
        right. exists (x0 :: l1), l2. split; [reflexivity |].
        split; [exact Hacc | split; [| exact H2]].
        intros y ty [<- | Hy] Hcy Ey; [congruence | now apply (H1 y)].
Qed.

(** X16. The entry chosen by [download_latest_export_file] is a zip file
    of the listing whose name matches and whose last-modified stamp is the
    latest among such entries; among entries with that same stamp it is
    the first of the listing. *)
Theorem latest_export_is_latest (listing : list container_entry)
    (x : container_entry) :
  latest_export listing = inr x ->
  exists tx l1 l2,
    listing = l1 ++ x :: l2 /\
    is_candidate x = true /\
    parse_instant (last_modified x) = Some tx /\
    (forall y ty, In y l1 -> is_candidate y = true ->
       parse_instant (last_modified y) = Some ty -> ty < tx) /\
    (forall y ty, In y l2 -> is_candidate y = true ->
       parse_instant (last_modified y) = Some ty -> ty <= tx).
Proof.
  unfold latest_export. intros H.
  destruct (latest_loop None listing) as [e | [x' |]] eqn:E;
    try discriminate.
  injection H as ->.
  destruct (latest_loop_chosen listing None x I E)
    as (tx & Ex & Hc & [[Eq _] | (l1 & l2 & El & _ & H1 & H2)]);
    [discriminate |].
  now exists tx, l1, l2.
Qed.

Lemma latest_loop_none (listing : list container_entry) :
  forall latest,
    latest_loop latest listing = inr None <->
    latest = None /\ forall y, In y listing -> is_candidate y = false.
Proof.
  induction listing as [| x0 rest IH]; intros latest; cbn [latest_loop].
  - split.
    + intros H. injection H as ->. split; [reflexivity | intros y []].
    + intros [-> _]. reflexivity.
  - destruct (is_candidate x0) eqn:Hc0.
    + rewrite (latest_step_candidate latest x0 Hc0). split.
      * intros H.
        destruct (parse_instant (last_modified x0)); [| discriminate].
        destruct (parse_instant _); [| discriminate].
        destruct (Bool.eqb _ _); [| discriminate].
        apply IH in H. destruct H as [H _]. discriminate.
      * intros [_ H]. specialize (H x0 (or_introl eq_refl)). congruence.
    + rewrite (latest_step_skip latest x0 Hc0), IH. split.
      * intros [-> H]. split; [reflexivity |].
        intros y [<- | Hy]; [exact Hc0 | now apply H].
      * intros [-> H]. split; [reflexivity |].
        intros y Hy. apply H. now right.
Qed.

Lemma latest_loop_not_airflow (listing : list container_entry) :
  forall latest, latest_loop latest listing <> inl AirflowException.
Proof.
  induction listing as [| x0 rest IH]; intros latest; cbn [latest_loop].
  - discriminate.
  - destruct (is_candidate x0) eqn:Hc0.
    + rewrite (latest_step_candidate latest x0 Hc0).
      destruct (parse_instant (last_modified x0)); [| discriminate].
      destruct (parse_instant _); [| discriminate].
      destruct (Bool.eqb _ _); [apply IH | discriminate].
    + rewrite (latest_step_skip latest x0 Hc0). apply IH.
Qed.

(** From a chosen entry on, the loop goes through exactly when every later
    candidate has a stamp that can be read and that is, like the chosen
    one, with or without a time zone. *)
Lemma latest_loop_some_returns (listing : list container_entry) :
  forall a,
    latest_ok (Some a) ->
    (exists r, latest_loop (Some a) listing = inr r) <->
    (forall y, In y listing -> is_candidate y = true ->
       parse_instant (last_modified y) <> None /\
       stamp_aware (last_modified y) = stamp_aware (last_modified a)).
Proof.
  induction listing as [| x0 rest IH]; intros a Hok; cbn [latest_loop].
  - split; [intros _ y [] | intros _; now exists (Some a)].
  - destruct (is_candidate x0) eqn:Hc0.
    + rewrite (latest_step_candidate (Some a) x0 Hc0).
      destruct Hok as [Hca Hpa].
      destruct (parse_instant (last_modified a)) as [ta |] eqn:Ea;
        [| contradiction].
      destruct (parse_instant (last_modified x0)) as [t0 |] eqn:E0.
      * destruct (Bool.eqb (stamp_aware (last_modified x0))
                    (stamp_aware (last_modified a))) eqn:Eaw.
        -- apply Bool.eqb_prop in Eaw.
           set (a' := if t0 >? ta then x0 else a).
           assert (Hok' : latest_ok (Some a')).
           { unfold a'. destruct (t0 >? ta); split; congruence. }
           assert (Haw : stamp_aware (last_modified a')
                         = stamp_aware (last_modified a)).
           { unfold a'. now destruct (t0 >? ta). }
           rewrite (IH a' Hok'). rewrite Haw. split.
           ++ intros H y [<- | Hy] Hc; [| now apply H].
              split; [congruence | exact Eaw].
           ++ intros H y Hy Hc. apply H; [now right | exact Hc].
        -- split; [intros [r Hr]; discriminate |].
           intros H. destruct (H x0 (or_introl eq_refl) Hc0) as [_ Hx].
           rewrite Hx in Eaw. now rewrite Bool.eqb_reflx in Eaw.
      * split; [intros [r Hr]; discriminate |].
        intros H. destruct (H x0 (or_introl eq_refl) Hc0) as [Hx _].
        congruence.
    + rewrite (latest_step_skip (Some a) x0 Hc0), (IH a Hok). split.
      * intros H y [<- | Hy] Hc; [congruence | now apply H].
      * intros H y Hy Hc. apply H; [now right | exact Hc].
Qed.

Lemma latest_loop_returns (listing : list container_entry) :
  (exists x, latest_loop None listing = inr (Some x)) <->
  (exists y, In y listing /\ is_candidate y = true) /\
  (forall y, In y listing -> is_candidate y = true ->
     parse_instant (last_modified y) <> None) /\
  (forall y z, In y listing -> In z listing ->
     is_candidate y = true -> is_candidate z = true ->
     stamp_aware (last_modified y) = stamp_aware (last_modified z)).
Proof.
  induction listing as [| x0 rest IH]; cbn [latest_loop].
  - split; [intros [x H]; discriminate | intros [(y & [] & _) _]].
  - destruct (is_candidate x0) eqn:Hc0.
    + rewrite (latest_step_candidate None x0 Hc0).
      destruct (parse_instant (last_modified x0)) as [t0 |] eqn:E0.
      * rewrite Bool.eqb_reflx, Z.gtb_ltb, Z.ltb_irrefl.
        assert (Hok : latest_ok (Some x0)) by (split; congruence).
        pose proof (latest_loop_some_returns rest x0 Hok) as Hs.
        split.
        -- intros [x Hx].
           assert (Hr0 : exists r, latest_loop (Some x0) rest = inr r)
             by (now exists (Some x)).
           pose proof (proj1 Hs Hr0) as Hr.
           split; [exists x0; split; [now left | exact Hc0] |].
           split.
           ++ intros y [<- | Hy] Hc; [congruence | now apply Hr].
           ++ assert (Hall : forall y, In y (x0 :: rest) ->
                        is_candidate y = true ->
                        stamp_aware (last_modified y)
                        = stamp_aware (last_modified x0)).
              { intros y [<- | Hy] Hc; [reflexivity | now apply Hr]. }
              intros y z Hy Hz Hcy Hcz.
              now rewrite (Hall y Hy Hcy), (Hall z Hz Hcz).
        -- intros (_ & Hp & Haw).
           assert (Hr : exists r, latest_loop (Some x0) rest = inr r).
           { apply (proj2 Hs). intros y Hy Hc. split.
             - apply Hp; [now right | exact Hc].
             - apply Haw; [now right | now left | exact Hc | exact Hc0]. }
           destruct Hr as [[x |] Hr]; [now exists x |].
           apply latest_loop_none in Hr. destruct Hr as [Hr _]. discriminate.
      * split; [intros [x H]; discriminate |].
        intros (_ & Hp & _). exfalso.
        apply (Hp x0 (or_introl eq_refl) Hc0). exact E0.
    + rewrite (latest_step_skip None x0 Hc0), IH. split.
      * intros ((y & Hy & Hc) & Hp & Haw). split; [| split].
        -- exists y. split; [now right | exact Hc].
        -- intros z [<- | Hz] Hcz; [congruence | now apply Hp].
        -- intros z w [<- | Hz] [<- | Hw] Hcz Hcw; try congruence.
           now apply Haw.
      * intros ((y & [<- | Hy] & Hc) & Hp & Haw); [congruence |].
        split; [now exists y | split].
        -- intros z Hz Hcz. apply Hp; [now right | exact Hcz].
        -- intros z w Hz Hw. apply Haw; now right.
Qed.

(** X17. What the choice of the export file does: it raises the
    AirflowException exactly when the listing holds no zip file with a
    matching name; it goes through and chooses an entry exactly when there
    is such an entry, the stamp of every such entry can be read, and these
    stamps are all with or all without a time zone. In the remaining case
    it raises what the date parser or the comparison of two stamps
    raises. *)
Theorem latest_export_outcomes (listing : list container_entry) :
  (latest_export listing = inl AirflowException <->
   forall y, In y listing -> is_candidate y = false) /\
  ((exists x, latest_export listing = inr x) <->
   (exists y, In y listing /\ is_candidate y = true) /\
   (forall y, In y listing -> is_candidate y = true ->
      parse_instant (last_modified y) <> None) /\
   (forall y z, In y listing -> In z listing ->
      is_candidate y = true -> is_candidate z = true ->
      stamp_aware (last_modified y) = stamp_aware (last_modified z))).
Proof.
  split.
  - unfold latest_export.
    destruct (latest_loop None listing) as [e | [x |]] eqn:E.
    + split.
      * intros H. injection H as ->.
        now destruct (latest_loop_not_airflow listing None).
      * intros H.
        assert (E' : latest_loop None listing = inr None)
          by (apply latest_loop_none; auto).
        congruence.
    + split; [discriminate |]. intros H.
      assert (E' : latest_loop None listing = inr None)
        by (apply latest_loop_none; auto).
      congruence.
    + apply latest_loop_none in E. destruct E as [_ H]. split; auto.
  - rewrite <- latest_loop_returns. unfold latest_export. split.
    + intros [x H].
      destruct (latest_loop None listing) as [e | [x' |]]; try discriminate.
      now exists x'.
    + intros [x H]. rewrite H. now exists x.
Qed.

End Parkeervakken.

(** * The properties on the sample inputs *)

(** ** Minute arithmetic *)

(** C3 (counterexample). One minute after 23:59 is 00:00, and one minute
    before 00:00 is 23:59. *)
Lemma add_a_minute_2359_is_midnight :
  add_a_minute sample_today (time_hm 23 59) = time_hm 0 0 /\
  remove_a_minute sample_today (time_hm 0 0) = time_hm 23 59.
Proof.
  split; reflexivity.
Qed.

(** The minute arithmetic at 08:00, a time of day away from midnight. *)
Lemma minute_arithmetic_at_0800 :
  valid_time (time_hm 8 0) /\
  (add_a_minute sample_today (time_hm 23 59) = time_hm 0 0 /\
   remove_a_minute sample_today (time_hm 0 0) = time_hm 23 59 /\
   (time_ltb (time_hm 8 0) (time_hm 23 59) = true ->
    time_to_us (add_a_minute sample_today (time_hm 8 0))
    = time_to_us (time_hm 8 0) + US_PER_MINUTE) /\
   (time_geb (time_hm 8 0) (time_hm 0 1) = true ->
    time_to_us (remove_a_minute sample_today (time_hm 8 0))
    = time_to_us (time_hm 8 0) - US_PER_MINUTE)).
Proof.
  split.
  - unfold valid_time. simpl. lia.
  - apply (minute_arithmetic_wraps_at_midnight sample_today (time_hm 8 0)).
    unfold valid_time. simpl. lia.
Defined.

(** ** Day rules *)

(** C10 (counterexample). A record with neither aggregate flag set whose
    weekday flags are all falsy values other than None gets all seven days,
    and so does every record with neither aggregate flag set and no truthy
    weekday flag: none of them reaches the individual-weekday branch. *)
Lemma all_falsy_flags_give_all_days :
  days_from_row row_falsy_days = WEEK_DAYS /\
  ~ exists row,
      truthy (MA_VR (record row)) = false /\
      truthy (MA_ZA (record row)) = false /\
      (forall day, In day WEEK_DAYS ->
         is_not_None (getattr_day (record row) day) = true /\
         truthy (getattr_day (record row) day) = false) /\
      days_from_row row <> WEEK_DAYS.
Proof.
  split; [reflexivity |].
  intros (row & H1 & H2 & Hall & Hne). apply Hne.
  unfold days_from_row. rewrite H1, H2.
  assert (E : existsb truthy (map (getattr_day (record row)) WEEK_DAYS)
              = false).
  { apply not_true_is_false. intros E.
    apply existsb_exists in E. destruct E as (v & Hv & Ht).
    apply in_map_iff in Hv. destruct Hv as (day & <- & Hd).
    destruct (Hall day Hd) as [_ Hf]. congruence. }
  now rewrite E.
Qed.

(** With Monday set and Tuesday false, Tuesday is among the days although
    its flag is falsy. *)
Lemma falsy_tuesday_is_included :
  truthy (MA_VR (record row_mixed_days)) = false /\
  truthy (MA_ZA (record row_mixed_days)) = false /\
  truthy (getattr_day (record row_mixed_days) "di") = false /\
  In "di" (days_from_row row_mixed_days).
Proof.
  repeat split.
  apply (proj1 (days_from_row_individual_branch row_mixed_days
                  eq_refl eq_refl) eq_refl "di").
  split; [simpl; tauto | reflexivity].
Defined.

(** ** Modes *)

(** C7 (counterexample). A record with a temporary measure, an overnight
    slot 1 and a slot 2 yields four modes. *)
Lemma four_modes_example :
  List.length (get_modes hhmm_parse row_four_modes) = 4%nat.
Proof.
  reflexivity.
Qed.

(** Slot 1 from 20:00 to 06:00 gives the fragments 00:00-06:00 and
    20:00-23:59, in that order. *)
Lemma slot1_overnight_split_example :
  existsb str_truthy
    [BEGINTIJD1 (record row_overnight); EINDTIJD1 (record row_overnight)]
  = true /\
  time_geb (parse_time hhmm_parse (BEGINTIJD1 (record row_overnight))
              (time_hm 0 0))
           (parse_time hhmm_parse (EINDTIJD1 (record row_overnight))
              (time_hm 23 59)) = true /\
  exists x y,
    slot1_modes hhmm_parse (record row_overnight) = [x; y] /\
    get_modes hhmm_parse row_overnight
    = tvm_modes hhmm_parse (record row_overnight) ++ [x; y]
      ++ slot2_modes hhmm_parse (record row_overnight) /\
    m_begin_tijd x = time_hm 0 0 /\ m_eind_tijd x = time_hm 6 0 /\
    m_begin_tijd y = time_hm 20 0 /\ m_eind_tijd y = time_hm 23 59.
Proof.
  split; [reflexivity | split; [reflexivity |]].
  apply (slot1_overnight_split hhmm_parse row_overnight); reflexivity.
Defined.

(** The string 25:99 is no time of day: the default comes back. *)
Lemma parse_time_2599_falls_back :
  hhmm_parse (time_text "25:99") = None /\
  parse_time hhmm_parse (Some "25:99") (time_hm 23 59) = time_hm 23 59.
Proof.
  split; [reflexivity |].
  apply (parse_time_falls_back hhmm_parse "25:99" (time_hm 23 59)).
  reflexivity.
Defined.

(** ** Regimes *)

(** C1 (counterexample). With slot 1 from 08:00 to 18:00 and slot 2 from
    10:00 to 12:00 the record yields two modes, and the emitted regimes,
    ordered by begin time, are 00:00-07:59, 08:00-18:00, 10:00-12:00 and
    12:01-23:59: the third does not begin one minute after the second
    ends. *)
Lemma overlapping_slots_not_contiguous :
  get_modes hhmm_parse row_overlap <> [] /\
  map (fun x => (begin_tijd x, eind_tijd x))
    (sort_by_begin (create_regimes sample_today hhmm_parse row_overlap))
  = [(time_hm 0 0, time_hm 7 59); (time_hm 8 0, time_hm 18 0);
     (time_hm 10 0, time_hm 12 0); (time_hm 12 1, time_hm 23 59)] /\
  ~ contiguous
      (sort_by_begin (create_regimes sample_today hhmm_parse row_overlap)).
Proof.
  split; [discriminate |]. split; [reflexivity |].
  intros H. vm_compute in H. destruct H as (_ & H & _). discriminate H.
Qed.

(** The overnight slot 20:00 to 06:00: its two fragments are separated, and
    the three regimes emitted for them cover the day without a gap. *)
Lemma overnight_regimes_contiguous :
  get_modes hhmm_parse row_overnight <> [] /\
  Forall mode_ok (get_modes hhmm_parse row_overnight) /\
  modes_separated (get_modes hhmm_parse row_overnight) /\
  (let out := create_regimes sample_today hhmm_parse row_overnight in
   sort_by_begin out = out /\
   contiguous (sort_by_begin out) /\
   out <> [] /\
   (forall d, begin_tijd (hd d out) = time_hm 0 0) /\
   (forall d, eind_tijd (last out d) = time_hm 23 59)).
Proof.
  assert (Hne : get_modes hhmm_parse row_overnight <> []) by discriminate.
  assert (Hok : Forall mode_ok (get_modes hhmm_parse row_overnight)).
  { repeat constructor; simpl; lia. }
  assert (Hsep : modes_separated (get_modes hhmm_parse row_overnight)).
  { split; [reflexivity | exact I]. }
  split; [exact Hne | split; [exact Hok | split; [exact Hsep |]]].
  exact (create_regimes_contiguous sample_today hhmm_parse row_overnight
           Hne Hok Hsep).
Defined.

(** The record 42 with slot 1 from 08:00 to 18:00: a filler, the slot and a
    filler, all on every day. *)
Example day_slot_regimes :
  map (fun x => (begin_tijd x, eind_tijd x, soort x, dagen x))
    (create_regimes sample_today hhmm_parse row_day_slot)
  = [(time_hm 0 0, time_hm 7 59, "FISCAAL", WEEK_DAYS);
     (time_hm 8 0, time_hm 18 0, "FISCAAL", WEEK_DAYS);
     (time_hm 18 1, time_hm 23 59, "FISCAAL", WEEK_DAYS)].
Proof. reflexivity. Qed.

(** The record 7 with slot 1 from 20:00 to 06:00 and the Monday-Friday
    flag: the two fragments with a filler between them. *)
Example overnight_regimes :
  map (fun x => (begin_tijd x, eind_tijd x, soort x, dagen x))
    (create_regimes sample_today hhmm_parse row_overnight)
  = [(time_hm 0 0, time_hm 6 0, "FISCAAL", ["ma"; "di"; "wo"; "do"]);
     (time_hm 6 1, time_hm 19 59, "FISCAAL", ["ma"; "di"; "wo"; "do"]);
     (time_hm 20 0, time_hm 23 59, "FISCAAL", ["ma"; "di"; "wo"; "do"])].
Proof. reflexivity. Qed.

(** The regime of a record without modes keeps the days of [base_data],
    whatever the day flags of the record are. *)
Example override_regime_days :
  map dagen (create_regimes sample_today hhmm_parse row_override)
  = [WEEK_DAYS] /\
  days_from_row row_override = ["ma"; "di"; "wo"; "do"].
Proof. split; reflexivity. Qed.

(** C5 (counterexample). A record without any time attribute whose SOORT is
    MULDER has no mode, and its single regime has soort MULDER. *)
Lemma override_regime_keeps_soort :
  get_modes hhmm_parse row_override = [] /\
  exists x,
    create_regimes sample_today hhmm_parse row_override = [x] /\
    begin_tijd x = time_hm 0 0 /\ eind_tijd x = time_hm 23 59 /\
    soort x = "MULDER" /\ soort x <> "FISCAAL".
Proof.
  split; [reflexivity |].
  exists (full_override (record row_override)).
  repeat split. discriminate.
Qed.

(** A record with nothing set gets one FISCAAL regime for the whole day. *)
Lemma blank_record_regime :
  get_modes hhmm_parse (row_of (blank_record "1")) = [] /\
  exists x,
    create_regimes sample_today hhmm_parse (row_of (blank_record "1")) = [x] /\
    begin_tijd x = time_hm 0 0 /\
    eind_tijd x = time_hm 23 59 /\
    soort x = or_str (SOORT (record (row_of (blank_record "1")))) "FISCAAL".
Proof.
  split; [reflexivity |].
  apply (create_regimes_no_modes sample_today hhmm_parse
           (row_of (blank_record "1"))).
  reflexivity.
Defined.

(** C4 (counterexample). A record whose only mode is a temporary measure
    from 08:00 to 18:00 of soort E9 gets the spot soort FISCAAL, not E9; a
    record with SOORT MULDER and two modes gets the spot soort MULDER, not
    FISCAAL. *)
Lemma spot_soort_examples :
  (exists m,
     get_modes hhmm_parse row_tvm_timed = [m] /\ m_soort m = "E9" /\
     spot_soort sample_today hhmm_parse row_tvm_timed = "FISCAAL") /\
  (List.length (get_modes hhmm_parse row_two_slots) = 2%nat /\
   spot_soort sample_today hhmm_parse row_two_slots = "MULDER").
Proof.
  split.
  - exists (tvm_mode hhmm_parse (record row_tvm_timed)). repeat split.
  - split; reflexivity.
Qed.

(** ** Duplicates *)

(** Three rows with the identifiers 1, 2 and 1: the output for 1 is that of
    the first row, and the third row is reported as a duplicate. *)
Lemma import_data_duplicate_example :
  let a := row_of (blank_record "1") in
  let b := row_of (with_soort (Some "MULDER") None (blank_record "1")) in
  let rows := [] ++ a :: [row_of (blank_record "2")] ++ b :: [] in
  exists st,
    import_data sample_today hhmm_parse decimal_int rows [] = Some st /\
    spots_with_id decimal_int 1 (parkeervakken_sql st)
    = [create_parkeervaak a
         (regimes_soort (create_regimes sample_today hhmm_parse a))] /\
    regimes_with_id decimal_int 1 (regimes_sql st)
    = map (format_regime a) (create_regimes sample_today hhmm_parse a) /\
    In (PARKEER_ID (record b)) (duplicates st).
Proof.
  intros a b rows.
  apply (import_data_skips_duplicate sample_today hhmm_parse decimal_int
           [] 1 [] [row_of (blank_record "2")] [] a b).
  - intros row [<- | [<- | [<- | []]]]; discriminate.
  - reflexivity.
  - reflexivity.
  - intros [].
  - intros row [].
Defined.

(** * The further properties on the sample inputs *)

(** The round trip at midnight. *)
Lemma minute_round_trip_at_midnight :
  valid_time (time_hm 0 0) /\
  add_a_minute sample_today (remove_a_minute sample_today (time_hm 0 0))
  = time_hm 0 0 /\
  remove_a_minute sample_today (add_a_minute sample_today (time_hm 0 0))
  = time_hm 0 0.
Proof.
  assert (H : valid_time (time_hm 0 0)) by (unfold valid_time; simpl; lia).
  split; [exact H |].
  exact (minute_round_trip sample_today (time_hm 0 0) H).
Defined.

(** The regimes of the record with the temporary measure and slot 1. *)
Lemma tvm_and_slot_modes_and_fillers :
  get_modes hhmm_parse row_tvm_and_slot <> [] /\
  (forall m, In m (get_modes hhmm_parse row_tvm_and_slot) ->
     In (mode_data (base_data (record row_tvm_and_slot))
           (days_from_row row_tvm_and_slot) m)
        (create_regimes sample_today hhmm_parse row_tvm_and_slot)) /\
  Forall (fun x =>
            (exists m, In m (get_modes hhmm_parse row_tvm_and_slot) /\
               x = mode_data (base_data (record row_tvm_and_slot))
                     (days_from_row row_tvm_and_slot) m)
            \/ is_filler x)
    (create_regimes sample_today hhmm_parse row_tvm_and_slot).
Proof.
  assert (H : get_modes hhmm_parse row_tvm_and_slot <> []) by discriminate.
  split; [exact H |].
  exact (create_regimes_modes_and_fillers sample_today hhmm_parse
           row_tvm_and_slot H).
Defined.

(** The whole-day temporary measure ends at 23:59, and the slot after it
    gets a filler from 00:00 to 07:59 once more. *)
Lemma tvm_and_slot_cursor_restarts :
  get_modes hhmm_parse row_tvm_and_slot
  = [] ++ tvm_mode hhmm_parse (record row_tvm_and_slot)
       :: slot_mode (record row_tvm_and_slot) (time_hm 8 0) (time_hm 18 0)
       :: [] /\
  exists x,
    In x (create_regimes sample_today hhmm_parse row_tvm_and_slot) /\
    is_filler x /\
    begin_tijd x = time_hm 0 0 /\
    eind_tijd x
    = remove_a_minute sample_today
        (m_begin_tijd
           (slot_mode (record row_tvm_and_slot) (time_hm 8 0) (time_hm 18 0))).
Proof.
  split; [reflexivity |].
  apply (cursor_restarts_after_2359 sample_today hhmm_parse row_tvm_and_slot
           [] [] (tvm_mode hhmm_parse (record row_tvm_and_slot))
           (slot_mode (record row_tvm_and_slot) (time_hm 8 0) (time_hm 18 0)));
    reflexivity.
Defined.

(** Noon of the record with the overnight slot lies in one regime. *)
Lemma overnight_noon_covered :
  get_modes hhmm_parse row_overnight <> [] /\
  Forall mode_ok (get_modes hhmm_parse row_overnight) /\
  modes_separated (get_modes hhmm_parse row_overnight) /\
  exists x,
    filter (covers_minute 720)
      (create_regimes sample_today hhmm_parse row_overnight) = [x].
Proof.
  assert (Hne : get_modes hhmm_parse row_overnight <> []) by discriminate.
  assert (Hok : Forall mode_ok (get_modes hhmm_parse row_overnight)).
  { repeat constructor; simpl; lia. }
  assert (Hsep : modes_separated (get_modes hhmm_parse row_overnight)).
  { split; [reflexivity | exact I]. }
  split; [exact Hne | split; [exact Hok | split; [exact Hsep |]]].
  apply (create_regimes_covers_each_minute sample_today hhmm_parse
           row_overnight 720 Hne Hok Hsep).
  lia.
Defined.

(** The slot-1 modes of the overnight record, read with [hhmm_parse]. *)
Lemma overnight_slot1_well_formed :
  whole_minutes
    (parse_time hhmm_parse (BEGINTIJD1 (record row_overnight)) (time_hm 0 0)) /\
  whole_minutes
    (parse_time hhmm_parse (EINDTIJD1 (record row_overnight)) (time_hm 23 59)) /\
  Forall mode_ok (slot1_modes hhmm_parse (record row_overnight)) /\
  (parse_time hhmm_parse (BEGINTIJD1 (record row_overnight)) (time_hm 0 0)
   <> parse_time hhmm_parse (EINDTIJD1 (record row_overnight)) (time_hm 23 59)
   -> modes_separated (slot1_modes hhmm_parse (record row_overnight))).
Proof.
  assert (Wb : whole_minutes
                 (parse_time hhmm_parse (BEGINTIJD1 (record row_overnight))
                    (time_hm 0 0))).
  { unfold whole_minutes, valid_time. simpl. lia. }
  assert (We : whole_minutes
                 (parse_time hhmm_parse (EINDTIJD1 (record row_overnight))
                    (time_hm 23 59))).
  { unfold whole_minutes, valid_time. simpl. lia. }
  split; [exact Wb | split; [exact We |]].
  exact (slot1_modes_well_formed hhmm_parse (record row_overnight) Wb We).
Defined.

(** Midnight of the record with the overnight slot lies in one regime. *)
Lemma overnight_midnight_covered :
  exists x,
    filter (covers_minute 0)
      (create_regimes sample_today hhmm_parse row_overnight) = [x].
Proof.
  apply (slot1_only_covers_each_minute sample_today hhmm_parse
           row_overnight 0);
    try reflexivity;
    [unfold whole_minutes, valid_time; simpl; lia
    | unfold whole_minutes, valid_time; simpl; lia
    | discriminate
    | lia].
Defined.

(** The regimes of the 08:00-18:00 record carry its days and identifier. *)
Lemma day_slot_regimes_days :
  get_modes hhmm_parse row_day_slot <> [] /\
  Forall (fun x => dagen x = days_from_row row_day_slot
                   /\ parent_id x = PARKEER_ID (record row_day_slot))
    (create_regimes sample_today hhmm_parse row_day_slot).
Proof.
  assert (H : get_modes hhmm_parse row_day_slot <> []) by discriminate.
  split; [exact H |].
  exact (create_regimes_days sample_today hhmm_parse row_day_slot H).
Defined.

(** Three rows with the identifiers 1, 2 and 1: two spots, one duplicate. *)
Lemma three_rows_accounted_for :
  exists st,
    import_data sample_today hhmm_parse decimal_int
      [row_of (blank_record "1"); row_of (blank_record "2");
       row_of (blank_record "1")] [] = Some st /\
    (List.length (parkeervakken_sql st) + List.length (duplicates st)
     = 3)%nat /\
    (List.length (parkeervakken_sql st) <= List.length (regimes_sql st))%nat.
Proof.
  eexists. split; [reflexivity |].
  apply (import_data_accounts_for_rows sample_today hhmm_parse decimal_int
           [row_of (blank_record "1"); row_of (blank_record "2");
            row_of (blank_record "1")] []).
  reflexivity.
Defined.

(** The same rows read when 7 is already in [ids]. *)
Lemma three_rows_ids_distinct :
  NoDup [7] /\
  exists st,
    import_data sample_today hhmm_parse decimal_int
      [row_of (blank_record "1"); row_of (blank_record "2");
       row_of (blank_record "1")] [7] = Some st /\
    exists new,
      ids st = [7] ++ new /\ NoDup ([7] ++ new) /\
      map (fun pv => decimal_int (pv_parkeer_id pv)) (parkeervakken_sql st)
      = map Some new.
Proof.
  assert (H : NoDup [7]) by (constructor; [intros [] | constructor]).
  split; [exact H |].
  eexists. split; [reflexivity |].
  apply (import_data_ids_distinct sample_today hhmm_parse decimal_int
           [row_of (blank_record "1"); row_of (blank_record "2");
            row_of (blank_record "1")] [7]); [exact H | reflexivity].
Defined.

(** Two files that both hold the identifier 1. *)
Lemma two_files_ids_distinct :
  exists sts,
    run_imports sample_today hhmm_parse decimal_int
      [[row_of (blank_record "1")];
       [row_of (blank_record "1"); row_of (blank_record "2")]] = Some sts /\
    exists written,
      NoDup written /\
      map (fun pv => decimal_int (pv_parkeer_id pv))
        (List.concat (map parkeervakken_sql sts))
      = map Some written.
Proof.
  eexists. split; [reflexivity |].
  apply (run_imports_ids_distinct sample_today hhmm_parse decimal_int
           [[row_of (blank_record "1")];
            [row_of (blank_record "1"); row_of (blank_record "2")]]).
  reflexivity.
Defined.

(** Of the sample listing the fourth entry is chosen: the later of the two
    stamps of matching zip files, and the first entry that carries it. *)
Lemma sample_listing_latest :
  latest_export nivo_name decimal_int naive_stamp sample_listing
  = inr (mkEntry "application/zip" "nivo_2.zip" "20210201") /\
  exists tx l1 l2,
    sample_listing
    = l1 ++ mkEntry "application/zip" "nivo_2.zip" "20210201" :: l2 /\
    is_candidate nivo_name (mkEntry "application/zip" "nivo_2.zip" "20210201")
    = true /\
    decimal_int "20210201" = Some tx /\
    (forall y ty, In y l1 -> is_candidate nivo_name y = true ->
       decimal_int (last_modified y) = Some ty -> ty < tx) /\
    (forall y ty, In y l2 -> is_candidate nivo_name y = true ->
       decimal_int (last_modified y) = Some ty -> ty <= tx).
Proof.
  split; [reflexivity |].
  apply (latest_export_is_latest nivo_name decimal_int naive_stamp
           sample_listing
           (mkEntry "application/zip" "nivo_2.zip" "20210201")).
  reflexivity.
Defined.

(** ** Exceptions *)

(** C8 (the code at the failing input). On the string of twenty nines the
    parser raises OverflowError, which [parse_time] does not catch: the
    exception leaves [parse_time], and with it [get_modes] and
    [create_regimes] for a record that carries the string, while the
    string 25:99, on which the parser raises ParserError, gives the
    default. *)
Theorem parse_time_overflow_propagates :
  parse_time_run hhmm_parse overflow_on_nines
    (Some "99999999999999999999") (time_hm 0 0) = inl OverflowError /\
  get_modes_run hhmm_parse overflow_on_nines row_overflow
  = inl OverflowError /\
  create_regimes_run sample_today hhmm_parse overflow_on_nines row_overflow
  = inl OverflowError /\
  parse_time_run hhmm_parse overflow_on_nines (Some "25:99") (time_hm 0 0)
  = inr (time_hm 0 0).
Proof.
  repeat split.
Qed.

(** Three rows with the identifiers 1, 2 and 1, the third with a time
    string on which the parser raises: the loop goes through, the output
    for 1 is that of the first row, and the third row is reported as a
    duplicate. *)
Lemma import_data_run_duplicate_example :
  let a := row_of (blank_record "1") in
  let b := row_overflow in
  let rows := [] ++ a :: [row_of (blank_record "2")] ++ b :: [] in
  get_modes_run hhmm_parse overflow_on_nines b = inl OverflowError /\
  exists st,
    import_data_run sample_today hhmm_parse decimal_int overflow_on_nines
      rows [] = inr st /\
    spots_with_id decimal_int 1 (parkeervakken_sql st)
    = [create_parkeervaak a
         (regimes_soort (create_regimes sample_today hhmm_parse a))] /\
    regimes_with_id decimal_int 1 (regimes_sql st)
    = map (format_regime a) (create_regimes sample_today hhmm_parse a) /\
    In (PARKEER_ID (record b)) (duplicates st).
Proof.
  intros a b rows. split; [reflexivity |].
  apply (import_data_run_skips_duplicate sample_today hhmm_parse decimal_int
           overflow_on_nines [] 1 [] [row_of (blank_record "2")] [] a b).
  - intros row [<- | [<- | [<- | []]]]; discriminate.
  - intros row [<- | [<- | []]]; eexists; reflexivity.
  - reflexivity.
  - reflexivity.
  - intros [].
  - intros row [].
Defined.
